(** * Hover Time Tracker: the focus/session timer of [src/main.ts]

    A shallow embedding of the plugin class [HoverTimeTrackerPlugin] and of
    the data preparation of [HoverTimeView.onOpen], followed by the
    properties of the timer bookkeeping.  The second copy of the plugin
    source in the repository differs in the date key, in the settings it
    keeps in the same data file and in the names of the chart slices;
    these parts have modules of their own ([Moment], [Settings],
    [Legend]).

    Conventions of the embedding.
    - A JavaScript number that holds a millisecond count or an epoch
      timestamp is a [Z]; the arithmetic of the handlers ([-], [+]) stays
      inside the exactly representable integers, and [Math.round(x / 60000)]
      is taken on the exact quotient (a [Q]).
    - An object used as a dictionary ([TimeLog] and its day buckets) is a
      [gmap] over [string] keys, following the declared index signatures
      [{ [date: string]: { [note: string]: number } }].  The enumeration
      order of [Object.keys]/[Object.values] is the one of [map_to_list],
      not the insertion order of the JavaScript object; the statements are
      about membership and sums, never about the order.
    - [string | null] is [option string]; the truthiness tests of the source
      are written out ([truthy_note], [truthy_number]).
    - Every handler runs to completion on the event loop; its parameter
      [now] is the reading of the wall clock ([Date.now()], [new Date()])
      during that run.
    - [window.hoverTimeData] is assigned the object [timeLogs] itself, an
      alias with no state of its own, and has no field here. *)

From Stdlib Require Import ZArith QArith Qround Ascii String DecimalString Lia.
From Stdlib Require DecimalZ DecimalPos.
From stdpp Require Import gmap strings list fin_maps sorting.

Local Open Scope Z_scope.

(** ** The host's [Date]: UTC calendar fields and [toISOString] *)

Module JsDate.

Definition msPerDay : Z := 86400000.

Definition Day (t : Z) : Z := t / msPerDay.
Definition HourFromTime (t : Z) : Z := (t / 3600000) mod 24.
Definition MinFromTime (t : Z) : Z := (t / 60000) mod 60.
Definition SecFromTime (t : Z) : Z := (t / 1000) mod 60.
Definition msFromTime (t : Z) : Z := t mod 1000.

Record Civil := mkCivil { year : Z; month : Z; date : Z }.

(** Proleptic Gregorian date of a day number counted from 1970-01-01,
    by 400-year eras that start on 1 March. *)
Definition civil_from_days (d : Z) : Civil :=
  let z := d + 719468 in
  let era := z / 146097 in
  let doe := z mod 146097 in
  let yoe := (doe - doe / 1460 + doe / 36524 - doe / 146096) / 365 in
  let doy := doe - (365 * yoe + yoe / 4 - yoe / 100) in
  let mp := (5 * doy + 2) / 153 in
  let dd := doy - (153 * mp + 2) / 5 + 1 in
  let mm := if mp <? 10 then mp + 3 else mp - 9 in
  let yy := yoe + era * 400 in
  mkCivil (if mm <=? 2 then yy + 1 else yy) mm dd.

Definition digit (n : Z) : ascii := ascii_of_nat (48 + Z.to_nat (n mod 10)).

(** [w] decimal digits of [n], most significant first, zero filled. *)
Fixpoint pad (w : nat) (n : Z) : string :=
  match w with
  | O => EmptyString
  | S w' => String.append (pad w' (n / 10)) (String (digit n) EmptyString)
  end.

(** Four digits for the years 0..9999, a sign and six digits otherwise. *)
Definition isoYear (y : Z) : string :=
  if (0 <=? y) && (y <=? 9999) then pad 4 y
  else String.append (if y <? 0 then "-" else "+") (pad 6 (Z.abs y)).

Definition isoDate (c : Civil) : string :=
  String.append (isoYear (year c))
    (String.append "-" (String.append (pad 2 (month c))
      (String.append "-" (pad 2 (date c))))).

Definition isoTime (t : Z) : string :=
  String.append (pad 2 (HourFromTime t))
    (String.append ":" (String.append (pad 2 (MinFromTime t))
      (String.append ":" (String.append (pad 2 (SecFromTime t))
        (String.append "." (pad 3 (msFromTime t))))))).

Definition toISOString (t : Z) : string :=
  String.append (isoDate (civil_from_days (Day t)))
    (String.append "T" (String.append (isoTime t) "Z")).

(** [s.split(sep)[0]]: the text before the first separator. *)
Fixpoint split_head (sep : ascii) (s : string) : string :=
  match s with
  | EmptyString => EmptyString
  | String c s' => if Ascii.eqb c sep then EmptyString else String c (split_head sep s')
  end.

(** No character of [s] is the separator. *)
Fixpoint lacks (sep : ascii) (s : string) : bool :=
  match s with
  | EmptyString => true
  | String c s' => negb (Ascii.eqb c sep) && lacks sep s'
  end.

End JsDate.

(** ** JavaScript coercions used by the handlers *)

Definition truthy_string (s : string) : bool :=
  match s with EmptyString => false | String _ _ => true end.

Definition truthy_note (n : option string) : bool :=
  match n with Some s => truthy_string s | None => false end.

Definition truthy_number (n : Z) : bool := negb (n =? 0).

(** [v || 0] on a property read: a missing property and a stored zero both
    give [0]. *)
Definition or_zero (v : option Z) : Z :=
  match v with
  | Some n => if truthy_number n then n else 0
  | None => 0
  end.

(** [Math.round]: the nearest integer, halves towards plus infinity. *)
Definition Math_round (x : Q) : Z := Qfloor (Qplus x (Qmake 1 2)).

Definition quot (a b : Z) : Q := Qdiv (inject_Z a) (inject_Z b).

Definition Object_keys {V} (o : gmap string V) : list string := (map_to_list o).*1.
Definition Object_values {V} (o : gmap string V) : list V := (map_to_list o).*2.

(** [xs.reduce((a, b) => a + b, 0)] *)
Definition reduce_sum (xs : list Z) : Z := foldl (fun a b => a + b) 0 xs.

(** Decimal rendering of an integer inside a template literal. *)
Definition number_text (n : Z) : string := NilZero.string_of_int (Z.to_int n).

(** ** The plugin *)

Abbreviation DayLog := (gmap string Z) (only parsing).
Abbreviation TimeLog := (gmap string (gmap string Z)) (only parsing).

Record Plugin := mkPlugin {
  timeLogs : TimeLog;
  currentNote : option string;
  sessionStartTime : Z;
  (** text of the status bar item *)
  statusEl : string;
  (** snapshots handed to [saveData], newest first *)
  saved : list TimeLog
}.

Definition set_timeLogs (l : TimeLog) (p : Plugin) : Plugin :=
  mkPlugin l (currentNote p) (sessionStartTime p) (statusEl p) (saved p).
Definition set_currentNote (n : option string) (p : Plugin) : Plugin :=
  mkPlugin (timeLogs p) n (sessionStartTime p) (statusEl p) (saved p).
Definition set_sessionStartTime (t : Z) (p : Plugin) : Plugin :=
  mkPlugin (timeLogs p) (currentNote p) t (statusEl p) (saved p).
Definition setText (s : string) (p : Plugin) : Plugin :=
  mkPlugin (timeLogs p) (currentNote p) (sessionStartTime p) s (saved p).
Definition saveData (p : Plugin) : Plugin :=
  mkPlugin (timeLogs p) (currentNote p) (sessionStartTime p) (statusEl p)
           (timeLogs p :: saved p).

(** [new Date().toISOString().split('T')[0]] *)
Definition today (now : Z) : string :=
  JsDate.split_head "T"%char (JsDate.toISOString now).

Definition status_text (mins : Z) : string :=
  String.append "⏱️ " (String.append (number_text mins) " min").

Definition onWindowFocus (now : Z) (p : Plugin) : Plugin :=
  if truthy_note (currentNote p) then set_sessionStartTime now p else p.

Definition recordTime (now : Z) (note : string) (ms : Z) (p : Plugin) : Plugin :=
  let date := today now in
  let logs := match timeLogs p !! date with
              | Some _ => timeLogs p
              | None => <[date := ∅]> (timeLogs p)
              end in
  let bucket := default ∅ (logs !! date) in
  set_timeLogs (<[date := <[note := or_zero (bucket !! note) + ms]> bucket]> logs) p.

Definition updateStatusBar (now : Z) (p : Plugin) : Plugin :=
  let date := today now in
  let todayLog := default ∅ (timeLogs p !! date) in
  let totalMs := reduce_sum (Object_values todayLog) in
  let mins := Math_round (quot totalMs 60000) in
  setText (status_text mins) p.

Definition onWindowBlur (now : Z) (p : Plugin) : Plugin :=
  match currentNote p with
  | Some note =>
      if truthy_string note && truthy_number (sessionStartTime p) then
        let elapsed := now - sessionStartTime p in
        let p1 := recordTime now note elapsed p in
        let p2 := set_sessionStartTime 0 p1 in
        let p3 := updateStatusBar now p2 in
        saveData p3
      else p
  | None => p
  end.

(** What [leaf.view] can be: a [MarkdownView], whose [file] is a [TFile]
    (here its [path]) or [null], or a view of another class. *)
Inductive View :=
| MarkdownView (file : option string)
| OtherView.

Definition onLeafChange (now : Z) (view : View) (p : Plugin) : Plugin :=
  match view with
  | MarkdownView (Some filePath) =>
      if decide (Some filePath ≠ currentNote p) then
        onWindowFocus now (set_currentNote (Some filePath) (onWindowBlur now p))
      else p
  | _ => set_currentNote None (onWindowBlur now p)
  end.

(** The callback of [window.setInterval(..., 60000)]. *)
Definition intervalTick (now : Z) (p : Plugin) : Plugin :=
  onWindowFocus now (onWindowBlur now p).

Definition onunload (now : Z) (p : Plugin) : Plugin :=
  saveData (onWindowBlur now p).

(** The field initialisers of the class. *)
Definition newPlugin : Plugin := mkPlugin ∅ None 0 EmptyString [].

(** What [loadData()] can resolve to. *)
Inductive Stored :=
| StoredNull
| StoredUndefined
| StoredBool (b : bool)
| StoredNaN
| StoredNumber (n : Z)
| StoredString (s : string)
| StoredObject (o : TimeLog).

Definition truthy (v : Stored) : bool :=
  match v with
  | StoredNull | StoredUndefined | StoredNaN => false
  | StoredBool b => b
  | StoredNumber n => truthy_number n
  | StoredString s => truthy_string s
  | StoredObject _ => true
  end.

(** [(stored as TimeLog) || {}].  The cast is unchecked: a truthy value that
    is not an object has no reading as a [TimeLog], hence [None]. *)
Definition stored_or_empty (stored : Stored) : option TimeLog :=
  if truthy stored then
    match stored with
    | StoredObject o => Some o
    | _ => None
    end
  else Some ∅.

(** The part of [onload] that touches the timer state: the log is loaded,
    the status bar item is created and refreshed. *)
Definition onload (now : Z) (stored : Stored) : option Plugin :=
  match stored_or_empty stored with
  | Some logs => Some (updateStatusBar now (set_timeLogs logs newPlugin))
  | None => None
  end.

(** [HoverTimeView.onOpen], up to the [data] array of the pie series:
    one [(name, value)] slice per key of today's bucket. *)
Definition onOpen (now : Z) (p : Plugin) : list (string * Z) :=
  let date := today now in
  let data := default ∅ (timeLogs p !! date) in
  let labels := Object_keys data in
  let values := (fun note => Math_round (quot (default 0 (data !! note)) 60000)) <$> labels in
  imap (fun idx name => (name, default 0 (values !! idx))) labels.

(** ** Host events and runs *)

Inductive Event :=
| WindowFocus
| WindowBlur
| ActiveLeafChange (view : View)
| IntervalTick
| Unload.

Definition handle (now : Z) (e : Event) (p : Plugin) : Plugin :=
  match e with
  | WindowFocus => onWindowFocus now p
  | WindowBlur => onWindowBlur now p
  | ActiveLeafChange v => onLeafChange now v p
  | IntervalTick => intervalTick now p
  | Unload => onunload now p
  end.

(** Events are delivered one at a time, each with the clock reading of its
    handler run. *)
Fixpoint run (evs : list (Z * Event)) (p : Plugin) : Plugin :=
  match evs with
  | [] => p
  | (now, e) :: evs' => run evs' (handle now e p)
  end.

(** Reading the log: [log[date][note]], [None] for [undefined]. *)
Definition log_lookup (l : TimeLog) (date note : string) : option Z :=
  l !! date ≫= (fun bucket => bucket !! note).

Definition log_value (l : TimeLog) (date note : string) : Z :=
  default 0 (log_lookup l date note).

(** All the milliseconds today's bucket holds, as [updateStatusBar] adds
    them up. *)
Definition day_total (l : TimeLog) (date : string) : Z :=
  reduce_sum (Object_values (default ∅ (l !! date))).

(** All the milliseconds recorded for a note, over every day of the log. *)
Definition recorded_total (l : TimeLog) (note : string) : Z :=
  map_fold (fun _ (bucket : DayLog) acc => default 0 (bucket !! note) + acc) 0 l.

(** The guard of [onWindowBlur]: a session is being timed. *)
Definition session_in_progress (p : Plugin) : Prop :=
  truthy_note (currentNote p) && truthy_number (sessionStartTime p) = true.

(** The host hands out vault paths, which are never the empty string. *)
Definition view_path_ok (v : View) : Prop :=
  match v with
  | MarkdownView (Some filePath) => filePath ≠ EmptyString
  | _ => True
  end.

Definition event_path_ok (e : Event) : Prop :=
  match e with
  | ActiveLeafChange v => view_path_ok v
  | _ => True
  end.

(** ** The date key of the second copy of the plugin

    The second copy of the plugin source in the repository reads the key
    with [moment().format('YYYY-MM-DD')], the calendar day of the local
    clock; the rest of [recordTime] and [updateStatusBar] is unchanged.
    [moment] is a library outside the repository: [format_YYYY_MM_DD]
    stands for what its documentation says of this call, the date of the
    clock reading shifted by the offset of the local zone, and nothing is
    proved about the library itself. *)

Module Moment.

(** [zeroFill(n, w)]: at least [w] digits, a minus sign when negative. *)
Definition zeroFill (n : Z) (w : nat) : string :=
  String.append (if n <? 0 then "-" else "")
    (if Z.abs n <? 10 ^ Z.of_nat w then JsDate.pad w (Z.abs n)
     else number_text (Z.abs n)).

(** [utcOffset]: minutes the local clock is ahead of UTC. *)
Definition format_YYYY_MM_DD (utcOffset : Z) (now : Z) : string :=
  let c := JsDate.civil_from_days (JsDate.Day (now + utcOffset * 60000)) in
  String.append (zeroFill (JsDate.year c) 4)
    (String.append "-" (String.append (zeroFill (JsDate.month c) 2)
      (String.append "-" (zeroFill (JsDate.date c) 2)))).

Definition recordTime (utcOffset now : Z) (note : string) (ms : Z) (p : Plugin) : Plugin :=
  let date := format_YYYY_MM_DD utcOffset now in
  let logs := match timeLogs p !! date with
              | Some _ => timeLogs p
              | None => <[date := ∅]> (timeLogs p)
              end in
  let bucket := default ∅ (logs !! date) in
  set_timeLogs (<[date := <[note := or_zero (bucket !! note) + ms]> bucket]> logs) p.

End Moment.

(** ** The timer of the specification

    Written from the words of the specification, not from the source: the
    Timer/Recorder of its section 4.1, with
    [activeDocument: identifier|none] and [sessionStart: timestamp|none],
    made to list the sessions it completes.  It is the yardstick the log of
    the plugin is measured against; nothing of the plugin is defined from
    it. *)

Module Spec.

Record Timer := mkTimer {
  activeDocument : option string;
  sessionStart : option Z
}.

(** A completed session: the document and the interval (start, end). *)
Record Session := mkSession { doc : string; start : Z; finish : Z }.

Definition onFocusAcquired (now : Z) (t : Timer) : Timer :=
  match activeDocument t with
  | Some _ => mkTimer (activeDocument t) (Some now)
  | None => t
  end.

Definition onFocusLost (now : Z) (t : Timer) : Timer * list Session :=
  match activeDocument t, sessionStart t with
  | Some d, Some s => (mkTimer (activeDocument t) None, [mkSession d s now])
  | _, _ => (t, [])
  end.

Definition onActiveDocumentChanged (now : Z) (newDocument : option string)
    (t : Timer) : Timer * list Session :=
  if decide (newDocument ≠ activeDocument t) then
    let (t1, closed) := onFocusLost now t in
    let t2 := mkTimer newDocument (sessionStart t1) in
    (match newDocument with
     | Some _ => onFocusAcquired now t2
     | None => t2
     end, closed)
  else (t, []).

(** The identifier a changed-document notification carries: none when
    the view shows no text document. *)
Definition document_of (v : View) : option string :=
  match v with
  | MarkdownView (Some filePath) => Some filePath
  | _ => None
  end.

Definition step (now : Z) (e : Event) (t : Timer) : Timer * list Session :=
  match e with
  | WindowFocus => (onFocusAcquired now t, [])
  | WindowBlur => onFocusLost now t
  | ActiveLeafChange v => onActiveDocumentChanged now (document_of v) t
  | IntervalTick =>
      let (t1, closed) := onFocusLost now t in (onFocusAcquired now t1, closed)
  | Unload => onFocusLost now t
  end.

(** The sessions completed along a run, oldest first. *)
Fixpoint sessions (evs : list (Z * Event)) (t : Timer) : list Session :=
  match evs with
  | [] => []
  | (now, e) :: evs' =>
      let (t', closed) := step now e t in closed ++ sessions evs' t'
  end.

(** A session counts for the document it timed, on the day it ended. *)
Definition attributed (key : Z -> string) (date note : string) (s : Session) : bool :=
  bool_decide (doc s = note) && bool_decide (key (finish s) = date).

(** Sum of the lengths of the sessions attributed to [note] on [date]. *)
Fixpoint total (key : Z -> string) (date note : string) (ss : list Session) : Z :=
  match ss with
  | [] => 0
  | s :: ss' =>
      (if attributed key date note s then finish s - start s else 0)
      + total key date note ss'
  end.

End Spec.

(** ** Vocabulary of the statements *)

(** Handling [e] from [p] ends the session in progress: every handler but
    [onWindowFocus] runs [onWindowBlur], except [onLeafChange] on the file
    that is already the current note. *)
Definition ends_session (e : Event) (p : Plugin) : Prop :=
  session_in_progress p ∧
  match e with
  | WindowFocus => False
  | ActiveLeafChange (MarkdownView (Some filePath)) => Some filePath ≠ currentNote p
  | _ => True
  end.

(** Every entry of [l] is still in [l'], with a value at least as large. *)
Definition log_le (l l' : TimeLog) : Prop :=
  ∀ date note v, log_lookup l date note = Some v →
    ∃ v', log_lookup l' date note = Some v' ∧ v ≤ v'.

Definition log_nonneg (l : TimeLog) : Prop :=
  ∀ date note v, log_lookup l date note = Some v → 0 ≤ v.

(** No session is being timed, or it started no later than [t]. *)
Definition started_by (t : Z) (p : Plugin) : Prop :=
  sessionStartTime p = 0 ∨ sessionStartTime p ≤ t.

(** The current note is [null] or a non-empty path. *)
Definition note_ok (p : Plugin) : Prop := currentNote p ≠ Some EmptyString.

(** The timer of the specification a plugin state stands for: the session
    start 0 reads as "none". *)
Definition timer_of (p : Plugin) : Spec.Timer :=
  Spec.mkTimer (currentNote p)
    (if truthy_number (sessionStartTime p) then Some (sessionStartTime p) else None).

(** What a list of completed sessions adds to every entry of the log,
    from the state [p] to the state [p']. *)
Definition adds (ss : list Spec.Session) (p p' : Plugin) : Prop :=
  ∀ date note,
    log_value (timeLogs p') date note =
    log_value (timeLogs p) date note + Spec.total today date note ss.

(** An event that makes no document current: anything but a change of the
    active leaf to a Markdown file with a non-empty path. *)
Definition opens_nothing (e : Event) : Prop :=
  match e with
  | ActiveLeafChange (MarkdownView (Some filePath)) => filePath = EmptyString
  | _ => True
  end.

(** A session start is pending only while a note is current. *)
Definition coherent (p : Plugin) : Prop :=
  sessionStartTime p ≠ 0 → truthy_note (currentNote p) = true.

(** The latest snapshot handed to [saveData] is the log as it stands; as
    long as nothing was handed over, the log is still [loaded]. *)
Definition synced (loaded : TimeLog) (p : Plugin) : Prop :=
  match saved p with
  | [] => timeLogs p = loaded
  | snapshot :: _ => snapshot = timeLogs p
  end.

Definition sum_Z (xs : list Z) : Z := foldr Z.add 0 xs.

(** A run of periodic ticks followed by the blur that ends the session. *)
Definition ticks_then_blur (ticks : list Z) (e : Z) : list (Z * Event) :=
  ((fun u => (u, IntervalTick)) <$> ticks) ++ [(e, WindowBlur)].

(** ** The second copy of the plugin: settings and the shared data file

    The second copy of the plugin source keeps a settings object next to
    the log and hands both to the same [saveData].  [data.json] is written
    by this plugin only, so a stored object is a [Blob]: the property
    [sortBy], if present, and the date buckets (a date key contains
    hyphens and is never the name [sortBy]).  [loadData()] gives what the
    last [saveData] was handed, parsed anew at each call, or [null] when
    nothing was saved yet. *)

Module Settings.

Record Blob := mkBlob {
  sortBy : option string;
  buckets : TimeLog
}.

(** [{}] *)
Definition empty : Blob := mkBlob None ∅.

Definition DEFAULT_SETTINGS : Blob := mkBlob (Some "note"%string) ∅.

(** [Object.assign({}, a, b)]: the properties of [a], overridden by
    those of [b]. *)
Definition Object_assign (a b : Blob) : Blob :=
  mkBlob (match sortBy b with Some v => Some v | None => sortBy a end)
         (buckets b ∪ buckets a).

Record Plugin := mkPlugin {
  settings : Blob;
  timeLogs : Blob;
  todayMin : Z;
  currentNote : option string;
  sessionStartTime : Z;
  statusEl : string;
  (** the content of [data.json], [None] while the file is absent *)
  data : option Blob
}.

Definition set_settings (b : Blob) (p : Plugin) : Plugin :=
  mkPlugin b (timeLogs p) (todayMin p) (currentNote p) (sessionStartTime p)
           (statusEl p) (data p).
Definition set_timeLogs (b : Blob) (p : Plugin) : Plugin :=
  mkPlugin (settings p) b (todayMin p) (currentNote p) (sessionStartTime p)
           (statusEl p) (data p).
Definition set_todayMin (m : Z) (p : Plugin) : Plugin :=
  mkPlugin (settings p) (timeLogs p) m (currentNote p) (sessionStartTime p)
           (statusEl p) (data p).
Definition set_currentNote (n : option string) (p : Plugin) : Plugin :=
  mkPlugin (settings p) (timeLogs p) (todayMin p) n (sessionStartTime p)
           (statusEl p) (data p).
Definition set_sessionStartTime (t : Z) (p : Plugin) : Plugin :=
  mkPlugin (settings p) (timeLogs p) (todayMin p) (currentNote p) t
           (statusEl p) (data p).
Definition setText (s : string) (p : Plugin) : Plugin :=
  mkPlugin (settings p) (timeLogs p) (todayMin p) (currentNote p)
           (sessionStartTime p) s (data p).

Definition loadData (p : Plugin) : option Blob := data p.

Definition saveData (b : Blob) (p : Plugin) : Plugin :=
  mkPlugin (settings p) (timeLogs p) (todayMin p) (currentNote p)
           (sessionStartTime p) (statusEl p) (Some b).

Definition loadSettings (p : Plugin) : Plugin :=
  set_settings (Object_assign DEFAULT_SETTINGS (default empty (loadData p))) p.

Definition saveSettings (p : Plugin) : Plugin := saveData (settings p) p.

Definition onWindowFocus (now : Z) (p : Plugin) : Plugin :=
  if truthy_note (currentNote p) then set_sessionStartTime now p else p.

Definition recordTime (utcOffset now : Z) (note : string) (ms : Z) (p : Plugin) : Plugin :=
  let date := Moment.format_YYYY_MM_DD utcOffset now in
  let logs := match buckets (timeLogs p) !! date with
              | Some _ => buckets (timeLogs p)
              | None => <[date := ∅]> (buckets (timeLogs p))
              end in
  let bucket := default ∅ (logs !! date) in
  set_timeLogs
    (mkBlob (sortBy (timeLogs p))
            (<[date := <[note := or_zero (bucket !! note) + ms]> bucket]> logs)) p.

Definition updateStatusBar (utcOffset now : Z) (p : Plugin) : Plugin :=
  let date := Moment.format_YYYY_MM_DD utcOffset now in
  let todayLog := default ∅ (buckets (timeLogs p) !! date) in
  let totalMs := reduce_sum (Object_values todayLog) in
  let mins := Math_round (quot totalMs 60000) in
  setText (status_text mins) (set_todayMin mins p).

Definition onWindowBlur (utcOffset now : Z) (p : Plugin) : Plugin :=
  match currentNote p with
  | Some note =>
      if truthy_string note && truthy_number (sessionStartTime p) then
        let elapsed := now - sessionStartTime p in
        let p1 := recordTime utcOffset now note elapsed p in
        let p2 := set_sessionStartTime 0 p1 in
        let p3 := updateStatusBar utcOffset now p2 in
        saveData (timeLogs p3) p3
      else p
  | None => p
  end.

Definition onLeafChange (utcOffset now : Z) (view : View) (p : Plugin) : Plugin :=
  match view with
  | MarkdownView (Some filePath) =>
      if decide (Some filePath ≠ currentNote p) then
        onWindowFocus now (set_currentNote (Some filePath) (onWindowBlur utcOffset now p))
      else p
  | _ => set_currentNote None (onWindowBlur utcOffset now p)
  end.

Definition intervalTick (utcOffset now : Z) (p : Plugin) : Plugin :=
  onWindowFocus now (onWindowBlur utcOffset now p).

Definition onunload (utcOffset now : Z) (p : Plugin) : Plugin :=
  let p1 := onWindowBlur utcOffset now p in saveData (timeLogs p1) p1.

(** The field initialisers of the class, on a given [data.json];
    [settings] has no initialiser and is set by [loadSettings]. *)
Definition newPlugin (file : option Blob) : Plugin :=
  mkPlugin empty empty 0 None 0 EmptyString file.

(** [onload]: the settings, then the log, both from [loadData()]. *)
Definition onload (utcOffset now : Z) (file : option Blob) : Plugin :=
  let p1 := loadSettings (newPlugin file) in
  let stored := loadData p1 in
  let p2 := set_timeLogs (default empty stored) p1 in
  updateStatusBar utcOffset now p2.

(** The [onChange] of the "Sort Chart By" dropdown. *)
Definition onChange (value : string) (p : Plugin) : Plugin :=
  saveSettings (set_settings (mkBlob (Some value) (buckets (settings p))) p).

Inductive Action :=
| Host (e : Event)
| SortChartBy (value : string).

Definition handle (utcOffset now : Z) (a : Action) (p : Plugin) : Plugin :=
  match a with
  | Host WindowFocus => onWindowFocus now p
  | Host WindowBlur => onWindowBlur utcOffset now p
  | Host (ActiveLeafChange v) => onLeafChange utcOffset now v p
  | Host IntervalTick => intervalTick utcOffset now p
  | Host Unload => onunload utcOffset now p
  | SortChartBy value => onChange value p
  end.

Fixpoint run (utcOffset : Z) (acts : list (Z * Action)) (p : Plugin) : Plugin :=
  match acts with
  | [] => p
  | (now, a) :: acts' => run utcOffset acts' (handle utcOffset now a p)
  end.

(** What the handlers leave alone: the [sortBy] property of the log
    object and the buckets of the settings object. *)
Definition kept (p q : Plugin) : Prop :=
  sortBy (timeLogs q) = sortBy (timeLogs p)
  ∧ buckets (settings q) = buckets (settings p).

End Settings.

(** ** The second copy of the plugin: the names of the chart slices

    [onOpen] of the second copy labels a slice with the [basename] of the
    file the vault has at the path, and otherwise with
    [p.split('/').pop()?.replace(/\.md$/i, '') ?? p]. *)

Module Legend.

(** [s.split(sep)]: the pieces between the separators, at least one. *)
Fixpoint split (sep : ascii) (s : string) : list string :=
  match s with
  | EmptyString => [EmptyString]
  | String c s' =>
      if Ascii.eqb c sep then EmptyString :: split sep s'
      else match split sep s' with
           | piece :: pieces => String c piece :: pieces
           | [] => [String c EmptyString]
           end
  end.

(** [/\.md$/i] matches here: the text is a dot, an M and a D of either
    case, and nothing more. *)
Definition is_dot_md (s : string) : bool :=
  match s with
  | String c1 (String c2 (String c3 EmptyString)) =>
      Ascii.eqb c1 "." && (Ascii.eqb c2 "m" || Ascii.eqb c2 "M")
      && (Ascii.eqb c3 "d" || Ascii.eqb c3 "D")
  | _ => false
  end.

(** [s.replace(/\.md$/i, '')] *)
Fixpoint strip_md (s : string) : string :=
  match s with
  | EmptyString => EmptyString
  | String c s' => if is_dot_md s then EmptyString else String c (strip_md s')
  end.

(** The label when the vault has no file at the path. *)
Definition fallback (p : string) : string :=
  match last (split "/" p) with
  | Some piece => strip_md piece
  | None => p
  end.

(** [vault p]: the [basename] of the [TFile] at [p], if there is one. *)
Definition label (vault : string -> option string) (p : string) : string :=
  match vault p with
  | Some basename => basename
  | None => fallback p
  end.

End Legend.


(** * Properties *)

(** ** Coercions *)

Lemma or_zero_default (v : option Z) : or_zero v = default 0 v.
Proof.
  destruct v as [n|]; simpl; [|reflexivity].
  unfold truthy_number. destruct (Z.eqb_spec n 0); simpl; congruence.
Qed.

Lemma truthy_string_nonempty (s : string) : truthy_string s = true ↔ s ≠ EmptyString.
Proof. destruct s; simpl; split; congruence. Qed.

Lemma truthy_number_nonzero (n : Z) : truthy_number n = true ↔ n ≠ 0.
Proof.
  unfold truthy_number. destruct (Z.eqb_spec n 0); simpl; split; congruence.
Qed.

(** [Math.round(n / 60000)] in integer arithmetic. *)
Lemma Math_round_quot_60000 (n : Z) :
  Math_round (quot n 60000) = (n + 30000) / 60000.
Proof.
  unfold Math_round, quot.
  assert (H : Qeq (Qplus (Qdiv (inject_Z n) (inject_Z 60000)) (Qmake 1 2))
                  (Qmake (n + 30000) 60000)).
  { unfold Qeq, Qdiv, Qplus, Qmult, Qinv, inject_Z. simpl. lia. }
  rewrite (Qfloor_comp _ _ H). reflexivity.
Qed.

(** ** The log under [recordTime] *)

Section LogFacts.

Implicit Types (p : Plugin) (note date : string) (now ms : Z).

Lemma timeLogs_recordTime now note ms p :
  timeLogs (recordTime now note ms p) =
  <[today now := <[note := log_value (timeLogs p) (today now) note + ms]>
                   (default ∅ (timeLogs p !! today now))]> (timeLogs p).
Proof.
  unfold recordTime, log_value, log_lookup. simpl.
  destruct (timeLogs p !! today now) as [b|] eqn:E; simpl.
  - rewrite E. simpl. by rewrite or_zero_default.
  - rewrite lookup_insert_eq. simpl. rewrite insert_insert_eq.
    by rewrite lookup_empty.
Qed.

Lemma log_lookup_recordTime_same now note ms p :
  log_lookup (timeLogs (recordTime now note ms p)) (today now) note =
  Some (log_value (timeLogs p) (today now) note + ms).
Proof.
  rewrite timeLogs_recordTime. unfold log_lookup at 1.
  rewrite lookup_insert_eq. simpl. by rewrite lookup_insert_eq.
Qed.

Lemma log_lookup_recordTime_other now note ms p date n :
  (date, n) ≠ (today now, note) →
  log_lookup (timeLogs (recordTime now note ms p)) date n =
  log_lookup (timeLogs p) date n.
Proof.
  intros Hne. rewrite timeLogs_recordTime. unfold log_lookup.
  destruct (decide (date = today now)) as [->|Hd].
  - rewrite lookup_insert_eq. simpl.
    rewrite lookup_insert_ne by congruence.
    by destruct (timeLogs p !! today now).
  - by rewrite lookup_insert_ne.
Qed.

Lemma log_value_recordTime_same now note ms p :
  log_value (timeLogs (recordTime now note ms p)) (today now) note =
  log_value (timeLogs p) (today now) note + ms.
Proof. unfold log_value at 1. by rewrite log_lookup_recordTime_same. Qed.

Lemma log_value_recordTime_other now note ms p date n :
  (date, n) ≠ (today now, note) →
  log_value (timeLogs (recordTime now note ms p)) date n =
  log_value (timeLogs p) date n.
Proof. intros H. unfold log_value. by rewrite log_lookup_recordTime_other. Qed.

Lemma timeLogs_recordTime_ext now note ms p q :
  timeLogs p = timeLogs q →
  timeLogs (recordTime now note ms p) = timeLogs (recordTime now note ms q).
Proof. intros H. rewrite !timeLogs_recordTime. by rewrite H. Qed.

Lemma currentNote_recordTime now note ms p :
  currentNote (recordTime now note ms p) = currentNote p.
Proof. reflexivity. Qed.

End LogFacts.

(** ** The two cases of [onWindowBlur] *)

Section Blur.

Implicit Types (p : Plugin) (note : string) (now : Z).

Lemma session_in_progress_iff p :
  session_in_progress p ↔
  ∃ note, currentNote p = Some note ∧ note ≠ EmptyString ∧ sessionStartTime p ≠ 0.
Proof.
  unfold session_in_progress, truthy_note. rewrite andb_true_iff.
  rewrite truthy_number_nonzero. split.
  - intros [Hn Hs]. destruct (currentNote p) as [note|]; [|discriminate].
    exists note. by rewrite <- truthy_string_nonempty.
  - intros (note & -> & Hn & Hs). by rewrite truthy_string_nonempty.
Qed.

Lemma onWindowBlur_closing now p note :
  currentNote p = Some note → note ≠ EmptyString → sessionStartTime p ≠ 0 →
  onWindowBlur now p =
  saveData (updateStatusBar now (set_sessionStartTime 0
    (recordTime now note (now - sessionStartTime p) p))).
Proof.
  intros Hc Hn Hs. unfold onWindowBlur. rewrite Hc.
  apply truthy_string_nonempty in Hn. apply truthy_number_nonzero in Hs.
  by rewrite Hn, Hs.
Qed.

Lemma onWindowBlur_idle now p :
  ¬ session_in_progress p → onWindowBlur now p = p.
Proof.
  unfold session_in_progress, onWindowBlur, truthy_note.
  destruct (currentNote p) as [note|]; [|done].
  by destruct (truthy_string note && truthy_number (sessionStartTime p)).
Qed.

Lemma currentNote_onWindowBlur now p :
  currentNote (onWindowBlur now p) = currentNote p.
Proof.
  unfold onWindowBlur. destruct (currentNote p) as [note|] eqn:E; [|done].
  by destruct (truthy_string note && truthy_number (sessionStartTime p)).
Qed.

Lemma timeLogs_onWindowBlur_closing now p note :
  currentNote p = Some note → note ≠ EmptyString → sessionStartTime p ≠ 0 →
  timeLogs (onWindowBlur now p) =
  timeLogs (recordTime now note (now - sessionStartTime p) p).
Proof. intros. by erewrite onWindowBlur_closing. Qed.

Lemma sessionStartTime_onWindowBlur now p :
  sessionStartTime (onWindowBlur now p) = 0 ∨
  (onWindowBlur now p = p ∧ ¬ session_in_progress p).
Proof.
  destruct (decide (session_in_progress p)) as [H|H].
  - left. apply session_in_progress_iff in H as (note & Hc & Hn & Hs).
    by erewrite onWindowBlur_closing.
  - right. split; [by apply onWindowBlur_idle | done].
Qed.

End Blur.

(** ** [onWindowFocus] *)

Section Focus.

Implicit Types (p : Plugin) (note : string) (now : Z).

Lemma onWindowFocus_active now p note :
  currentNote p = Some note → note ≠ EmptyString →
  onWindowFocus now p = set_sessionStartTime now p.
Proof.
  intros Hc Hn. unfold onWindowFocus. rewrite Hc. simpl.
  apply truthy_string_nonempty in Hn. by rewrite Hn.
Qed.

Lemma onWindowFocus_inactive now p :
  truthy_note (currentNote p) = false → onWindowFocus now p = p.
Proof. intros H. unfold onWindowFocus. by rewrite H. Qed.

Lemma timeLogs_onWindowFocus now p :
  timeLogs (onWindowFocus now p) = timeLogs p.
Proof. unfold onWindowFocus. by destruct (truthy_note (currentNote p)). Qed.

Lemma currentNote_onWindowFocus now p :
  currentNote (onWindowFocus now p) = currentNote p.
Proof. unfold onWindowFocus. by destruct (truthy_note (currentNote p)). Qed.

End Focus.

(** ** Single sessions *)

(** C9: [onWindowFocus] changes neither the log nor the active document.
    With a session in progress it overwrites the session start with the
    current time, and a later blur at [later] then records [later - now]
    (nothing at all when the clock read 0): the time between the previous
    session start and [now] is not recorded. *)
Theorem C9_focus_frame_and_restart (now : Z) (p : Plugin) :
  timeLogs (onWindowFocus now p) = timeLogs p
  ∧ currentNote (onWindowFocus now p) = currentNote p
  ∧ (session_in_progress p → sessionStartTime (onWindowFocus now p) = now)
  ∧ (∀ later note, session_in_progress p → currentNote p = Some note →
       timeLogs (onWindowBlur later (onWindowFocus now p)) =
       if decide (now = 0) then timeLogs p
       else timeLogs (recordTime later note (later - now) p)).
Proof.
  split; [apply timeLogs_onWindowFocus|].
  split; [apply currentNote_onWindowFocus|].
  split.
  - intros (note & Hc & Hn & _)%session_in_progress_iff.
    by rewrite (onWindowFocus_active _ _ _ Hc Hn).
  - intros later note (note' & Hc & Hn & _)%session_in_progress_iff Hc'.
    assert (note' = note) as -> by congruence.
    rewrite (onWindowFocus_active _ _ _ Hc Hn).
    destruct (decide (now = 0)) as [->|Hnz].
    + rewrite onWindowBlur_idle; [done|].
      intros (? & _ & _ & Hs)%session_in_progress_iff. by apply Hs.
    + by rewrite (timeLogs_onWindowBlur_closing later _ note).
Qed.

Lemma C9_focus_frame_and_restart_witness :
  let p := mkPlugin ∅ (Some "A.md"%string) 1000 EmptyString [] in
  session_in_progress p
  ∧ sessionStartTime (onWindowFocus 5000 p) = 5000
  ∧ log_lookup (timeLogs (onWindowBlur 9000 (onWindowFocus 5000 p)))
      (today 9000) "A.md" = Some 4000.
Proof.
  intros p.
  destruct (C9_focus_frame_and_restart 5000 p) as (_ & _ & Hstart & Hblur).
  assert (Hp : session_in_progress p) by reflexivity.
  split; [exact Hp|]. split; [exact (Hstart Hp)|].
  rewrite (Hblur 9000 "A.md"%string Hp eq_refl). reflexivity.
Defined.

(** C10: the blur that ends a session adds the whole elapsed time to the
    entry of the active note under the date key of the ending instant, and
    changes no other entry; when the session started under another date
    key, the bucket of that day gets nothing. *)
Theorem C10_whole_session_on_end_day (now : Z) (p : Plugin) (note : string) :
  currentNote p = Some note → note ≠ EmptyString → sessionStartTime p ≠ 0 →
  log_lookup (timeLogs (onWindowBlur now p)) (today now) note =
    Some (log_value (timeLogs p) (today now) note + (now - sessionStartTime p))
  ∧ (∀ date n, (date, n) ≠ (today now, note) →
       log_lookup (timeLogs (onWindowBlur now p)) date n =
       log_lookup (timeLogs p) date n)
  ∧ (today (sessionStartTime p) ≠ today now →
       ∀ n, log_lookup (timeLogs (onWindowBlur now p)) (today (sessionStartTime p)) n =
            log_lookup (timeLogs p) (today (sessionStartTime p)) n).
Proof.
  intros Hc Hn Hs.
  rewrite (timeLogs_onWindowBlur_closing now p note Hc Hn Hs).
  split; [apply log_lookup_recordTime_same|].
  split.
  - intros date n Hne. by apply log_lookup_recordTime_other.
  - intros Hday n. apply log_lookup_recordTime_other. congruence.
Qed.

Lemma C10_whole_session_on_end_day_witness :
  let p := mkPlugin ∅ (Some "A.md"%string) 1704153540000 EmptyString [] in
  today 1704153540000 = "2024-01-01"%string
  ∧ today 1704153660000 = "2024-01-02"%string
  ∧ log_lookup (timeLogs (onWindowBlur 1704153660000 p)) "2024-01-02" "A.md" = Some 120000
  ∧ log_lookup (timeLogs (onWindowBlur 1704153660000 p)) "2024-01-01" "A.md" = None.
Proof.
  intros p.
  destruct (C10_whole_session_on_end_day 1704153660000 p "A.md"%string)
    as (Hend & _ & Hstart); [reflexivity | discriminate | discriminate |].
  split; [reflexivity|]. split; [reflexivity|].
  split; [exact Hend|].
  apply (Hstart ltac:(vm_compute; discriminate) "A.md"%string).
Defined.

(** C7: a falsy result of [loadData()] ([null], [undefined], [false], [0],
    [NaN], the empty string) makes [onload] start from the empty log, and
    [onload] completes. *)
Theorem C7_falsy_blob_gives_empty_log (now : Z) (stored : Stored) :
  truthy stored = false →
  ∃ p, onload now stored = Some p
       ∧ timeLogs p = ∅ ∧ currentNote p = None ∧ sessionStartTime p = 0.
Proof.
  intros H. unfold onload, stored_or_empty. rewrite H.
  eexists. split; [reflexivity|]. by repeat split.
Qed.

Lemma C7_falsy_blob_gives_empty_log_witness :
  truthy StoredNull = false
  ∧ ∃ p, onload 1704153540000 StoredNull = Some p
         ∧ timeLogs p = ∅ ∧ currentNote p = None ∧ sessionStartTime p = 0.
Proof.
  split; [reflexivity|].
  apply (C7_falsy_blob_gives_empty_log 1704153540000 StoredNull). reflexivity.
Defined.

(** ** The focus/blur and focus/switch/blur scenarios *)

(** C3, amended: with a document [A] active and nothing recorded for it
    under the key of the blur instant, a focus at a clock reading [s] other
    than 0 and a blur at [s + 120000] leave exactly 120000 under that key
    and [A]. *)
Theorem C3_focus_blur_120000 (p : Plugin) (A : string) (s : Z) :
  currentNote p = Some A → A ≠ EmptyString → s ≠ 0 →
  log_value (timeLogs p) (today (s + 120000)) A = 0 →
  log_lookup (timeLogs (run [(s, WindowFocus); (s + 120000, WindowBlur)] p))
    (today (s + 120000)) A = Some 120000.
Proof.
  intros Hc Hn Hs H0. simpl.
  rewrite (onWindowFocus_active _ _ _ Hc Hn).
  rewrite (timeLogs_onWindowBlur_closing _ _ A); [|done..].
  rewrite log_lookup_recordTime_same. simpl. rewrite H0. f_equal; lia.
Qed.

Lemma C3_focus_blur_120000_witness :
  let p := set_currentNote (Some "A.md"%string) newPlugin in
  log_lookup (timeLogs (run [(1704067200000, WindowFocus);
                             (1704067200000 + 120000, WindowBlur)] p))
    (today (1704067200000 + 120000)) "A.md" = Some 120000.
Proof.
  intros p.
  apply (C3_focus_blur_120000 p "A.md"%string 1704067200000);
    [reflexivity | discriminate | lia | reflexivity].
Defined.

(** C3 as stated fails: a focus at clock reading 0 stores the value that
    marks "no session", so the blur at 120000 records nothing. *)
Lemma C3_clock_zero_counterexample :
  let p := set_currentNote (Some "A.md"%string) newPlugin in
  log_lookup (timeLogs (run [(0, WindowFocus); (120000, WindowBlur)] p))
    (today 120000) "A.md" ≠ Some 120000.
Proof. vm_compute. discriminate. Qed.

(** C4, amended: let [A] be active and focused at a clock reading [s]
    other than 0.  A change of the active document to [B] at [t], [t] not
    0, closes the session of [A] with the whole of [t - s] under the key of
    [t], credits [B] with nothing, makes [B] the active document and starts
    its session at [t]; a blur at [e] then credits [B] with [e - t] under
    the key of [e] and leaves the entry of [A] alone.  With nothing
    recorded before for the two entries they read [t - s] and [e - t]:
    60000 and 30000 for [t = s + 60000] and [e = s + 90000]. *)
Theorem C4_switch_closes_and_opens (p : Plugin) (A B : string) (s t e : Z) :
  currentNote p = Some A → A ≠ EmptyString → B ≠ EmptyString → B ≠ A →
  s ≠ 0 → t ≠ 0 →
  let p1 := onWindowFocus s p in
  let p2 := onLeafChange t (MarkdownView (Some B)) p1 in
  let p3 := onWindowBlur e p2 in
  log_lookup (timeLogs p2) (today t) A =
    Some (log_value (timeLogs p) (today t) A + (t - s))
  ∧ (∀ date, log_lookup (timeLogs p2) date B = log_lookup (timeLogs p) date B)
  ∧ currentNote p2 = Some B
  ∧ sessionStartTime p2 = t
  ∧ log_lookup (timeLogs p3) (today t) A =
      Some (log_value (timeLogs p) (today t) A + (t - s))
  ∧ log_lookup (timeLogs p3) (today e) B =
      Some (log_value (timeLogs p) (today e) B + (e - t)).
Proof.
  intros Hc HA HB HBA Hs Ht p1 p2 p3.
  assert (Hp1 : p1 = set_sessionStartTime s p) by by apply (onWindowFocus_active s p A).
  assert (Hblur : onWindowBlur t p1 =
      saveData (updateStatusBar t (set_sessionStartTime 0 (recordTime t A (t - s) p)))).
  { rewrite Hp1. by rewrite (onWindowBlur_closing t _ A). }
  assert (Hp2 : p2 = set_sessionStartTime t (set_currentNote (Some B) (onWindowBlur t p1))).
  { unfold p2, onLeafChange.
    destruct (decide (Some B ≠ currentNote p1)) as [_|Heq].
    - by apply (onWindowFocus_active t _ B).
    - exfalso. apply Heq. rewrite Hp1. simpl. congruence. }
  assert (Hl2 : timeLogs p2 = timeLogs (recordTime t A (t - s) p)).
  { rewrite Hp2, Hblur. reflexivity. }
  assert (Hl3 : timeLogs p3 = timeLogs (recordTime e B (e - t) p2)).
  { unfold p3. rewrite (timeLogs_onWindowBlur_closing e p2 B); rewrite ?Hp2; done. }
  assert (HA2 : log_lookup (timeLogs p2) (today t) A =
                Some (log_value (timeLogs p) (today t) A + (t - s))).
  { by rewrite Hl2, log_lookup_recordTime_same. }
  assert (HB2 : ∀ date, log_lookup (timeLogs p2) date B = log_lookup (timeLogs p) date B).
  { intros date. rewrite Hl2, log_lookup_recordTime_other; [done | congruence]. }
  split; [done|]. split; [done|].
  split; [by rewrite Hp2|]. split; [by rewrite Hp2|]. split.
  - rewrite Hl3, log_lookup_recordTime_other; [done | congruence].
  - rewrite Hl3, log_lookup_recordTime_same. unfold log_value at 1.
    by rewrite HB2.
Qed.

Lemma C4_switch_closes_and_opens_witness :
  let p := set_currentNote (Some "A.md"%string) newPlugin in
  let s := 1704067200000 in
  let p3 := run [(s, WindowFocus);
                 (s + 60000, ActiveLeafChange (MarkdownView (Some "B.md"%string)));
                 (s + 90000, WindowBlur)] p in
  today (s + 60000) = "2024-01-01"%string
  ∧ today (s + 90000) = "2024-01-01"%string
  ∧ log_lookup (timeLogs p3) "2024-01-01" "A.md" = Some 60000
  ∧ log_lookup (timeLogs p3) "2024-01-01" "B.md" = Some 30000.
Proof.
  intros p s p3.
  destruct (C4_switch_closes_and_opens p "A.md"%string "B.md"%string
              s (s + 60000) (s + 90000))
    as (_ & _ & _ & _ & HA & HB);
    [reflexivity | discriminate | discriminate | discriminate
    | discriminate | discriminate |].
  split; [reflexivity|]. split; [reflexivity|].
  split; [exact HA | exact HB].
Defined.

(** C4 as stated fails for the same reason: after a focus at clock reading
    0 the switch at 60000 finds no session to close, and [A] gets no
    entry. *)
Lemma C4_clock_zero_counterexample :
  let p := set_currentNote (Some "A.md"%string) newPlugin in
  let p3 := run [(0, WindowFocus);
                 (60000, ActiveLeafChange (MarkdownView (Some "B.md"%string)));
                 (90000, WindowBlur)] p in
  log_lookup (timeLogs p3) (today 90000) "A.md" = None
  ∧ log_lookup (timeLogs p3) (today 90000) "B.md" = Some 30000
  ∧ log_lookup (timeLogs p3) (today 90000) "A.md" ≠ Some 60000.
Proof. vm_compute. repeat split; discriminate. Qed.

(** ** Presentation: status bar and chart *)

Section Presentation.

Implicit Types (p : Plugin) (now : Z).


Lemma imap_lookup_fmap {A B} (f : A → B) (d : B) (l : list A) :
  imap (fun idx x => (x, default d ((f <$> l) !! idx))) l = (fun x => (x, f x)) <$> l.
Proof.
  induction l as [|a l IH]; [done|].
  simpl. f_equal. etransitivity; [|exact IH]. by apply imap_ext.
Qed.

Lemma onOpen_slices now p :
  onOpen now p =
  (fun note => (note, Math_round (quot
      (default 0 (default ∅ (timeLogs p !! today now) !! note)) 60000)))
  <$> Object_keys (default ∅ (timeLogs p !! today now)).
Proof. unfold onOpen. by rewrite imap_lookup_fmap. Qed.



End Presentation.

Section StatusText.





End StatusText.



(** ** The periodic tick *)

Section Totals.

Implicit Types (l : TimeLog) (p : Plugin) (note date : string).

Lemma recorded_total_insert l date note (bucket : DayLog) :
  recorded_total (<[date := bucket]> l) note =
  recorded_total l note - log_value l date note + default 0 (bucket !! note).
Proof.
  unfold recorded_total, log_value, log_lookup.
  assert (Hcomm : ∀ (m : TimeLog) (j1 j2 : string) (z1 z2 : DayLog) (y : Z),
            j1 ≠ j2 → m !! j1 = Some z1 → m !! j2 = Some z2 →
            default 0 (z1 !! note) + (default 0 (z2 !! note) + y) =
            default 0 (z2 !! note) + (default 0 (z1 !! note) + y))
    by (intros; lia).
  destruct (l !! date) as [b|] eqn:E; simpl.
  - rewrite <- (insert_delete_eq l date bucket).
    rewrite (map_fold_insert_L _ _ _ _ _ (Hcomm _)) by apply lookup_delete_eq.
    rewrite (map_fold_delete_L _ _ date b l (Hcomm _) E). lia.
  - rewrite (map_fold_insert_L _ _ _ _ _ (Hcomm _) E). lia.
Qed.

Lemma recorded_total_recordTime now note ms p :
  recorded_total (timeLogs (recordTime now note ms p)) note =
  recorded_total (timeLogs p) note + ms.
Proof.
  rewrite timeLogs_recordTime, recorded_total_insert, lookup_insert_eq.
  simpl. lia.
Qed.

Lemma recordTime_twice_same_day now now' note ms ms' p :
  today now = today now' →
  timeLogs (recordTime now' note ms' (recordTime now note ms p)) =
  timeLogs (recordTime now' note (ms + ms') p).
Proof.
  intros Hday. rewrite (timeLogs_recordTime now' note ms'), <- Hday.
  rewrite log_value_recordTime_same.
  rewrite (timeLogs_recordTime now' note (ms + ms')), <- Hday.
  rewrite timeLogs_recordTime, lookup_insert_eq. simpl.
  rewrite !insert_insert_eq. do 2 f_equal. lia.
Qed.

End Totals.

Lemma timeLogs_intervalTick_closing (now : Z) (p : Plugin) (note : string) :
  currentNote p = Some note → note ≠ EmptyString → sessionStartTime p ≠ 0 →
  intervalTick now p =
  set_sessionStartTime now (onWindowBlur now p)
  ∧ timeLogs (intervalTick now p) =
    timeLogs (recordTime now note (now - sessionStartTime p) p).
Proof.
  intros Hc Hn Hs. unfold intervalTick.
  rewrite (onWindowFocus_active now _ note);
    [|by rewrite currentNote_onWindowBlur|done].
  split; [done|]. by rewrite (onWindowBlur_closing now p note).
Qed.

(** A tick and then the blur, from a state with a session in progress:
    what the two record. *)
Lemma tick_then_blur_logs (p : Plugin) (A : string) (u e : Z) :
  currentNote p = Some A → A ≠ EmptyString → sessionStartTime p ≠ 0 → u ≠ 0 →
  timeLogs (onWindowBlur e (intervalTick u p)) =
  timeLogs (recordTime e A (e - u) (recordTime u A (u - sessionStartTime p) p)).
Proof.
  intros Hc Hn Hs Hu.
  destruct (timeLogs_intervalTick_closing u p A Hc Hn Hs) as [Htick Hlog].
  assert (Hst : sessionStartTime (intervalTick u p) = u) by by rewrite Htick.
  assert (Hcn : currentNote (intervalTick u p) = Some A).
  { unfold intervalTick.
    by rewrite currentNote_onWindowFocus, currentNote_onWindowBlur. }
  rewrite (timeLogs_onWindowBlur_closing e _ A Hcn Hn) by (by rewrite Hst).
  rewrite Hst. apply timeLogs_recordTime_ext. exact Hlog.
Qed.

(** C6, amended: let [A] be the current note, with a focus at a clock
    reading [s] other than 0 that starts its session.  A tick at [u],
    [u] not 0, and the final blur at [e], [s <= u <= e], record [u - s]
    and [e - u]; over all days the log then holds [e - s] more for [A],
    exactly as after the focus and the blur alone, and when [u] and [e]
    fall under one date key the two logs are equal. *)
Theorem C6_tick_keeps_total (p : Plugin) (A : string) (s u e : Z) :
  currentNote p = Some A → A ≠ EmptyString →
  s ≠ 0 → u ≠ 0 → s ≤ u → u ≤ e →
  let ticked := run [(s, WindowFocus); (u, IntervalTick); (e, WindowBlur)] p in
  let plain := run [(s, WindowFocus); (e, WindowBlur)] p in
  timeLogs ticked = timeLogs (recordTime e A (e - u) (recordTime u A (u - s) p))
  ∧ recorded_total (timeLogs ticked) A = recorded_total (timeLogs p) A + (e - s)
  ∧ recorded_total (timeLogs plain) A = recorded_total (timeLogs p) A + (e - s)
  ∧ (today u = today e → timeLogs ticked = timeLogs plain).
Proof.
  intros Hc Hn Hs Hu Hsu Hue ticked plain.
  assert (Hfocus : onWindowFocus s p = set_sessionStartTime s p)
    by by apply (onWindowFocus_active s p A).
  assert (Hticked : timeLogs ticked =
            timeLogs (recordTime e A (e - u) (recordTime u A (u - s) p))).
  { change ticked with (onWindowBlur e (intervalTick u (onWindowFocus s p))).
    rewrite Hfocus.
    rewrite (tick_then_blur_logs (set_sessionStartTime s p) A u e); [|done..].
    by apply timeLogs_recordTime_ext, timeLogs_recordTime_ext. }
  assert (Hplain : timeLogs plain = timeLogs (recordTime e A (e - s) p)).
  { change plain with (onWindowBlur e (onWindowFocus s p)). rewrite Hfocus.
    rewrite (timeLogs_onWindowBlur_closing e _ A); [|done..].
    by apply timeLogs_recordTime_ext. }
  split; [exact Hticked|]. split; [|split].
  - rewrite Hticked, !recorded_total_recordTime. lia.
  - rewrite Hplain, recorded_total_recordTime. lia.
  - intros Hday. rewrite Hticked, Hplain.
    rewrite (recordTime_twice_same_day u e A (u - s) (e - u) p Hday).
    rewrite !(timeLogs_recordTime e). do 3 f_equal. lia.
Qed.

Lemma C6_tick_keeps_total_witness :
  let p := set_currentNote (Some "A.md"%string) newPlugin in
  let s := 1704153540000 in
  let u := 1704153540000 + 50000 in
  let e := 1704153540000 + 120000 in
  today u = "2024-01-01"%string ∧ today e = "2024-01-02"%string
  ∧ recorded_total
      (timeLogs (run [(s, WindowFocus); (u, IntervalTick); (e, WindowBlur)] p))
      "A.md" = 120000
  ∧ recorded_total (timeLogs (run [(s, WindowFocus); (e, WindowBlur)] p)) "A.md"
    = 120000.
Proof.
  intros p s u e.
  destruct (C6_tick_keeps_total p "A.md"%string s u e)
    as (_ & Hticked & Hplain & _);
    [reflexivity | discriminate | discriminate | discriminate
    | unfold s, u; lia | unfold u, e; lia |].
  split; [reflexivity|]. split; [reflexivity|].
  split; [exact Hticked | exact Hplain].
Defined.

(** C6 as stated fails at the clock reading 0.  A session started by a
    focus at 0 is not seen by the handlers: with a tick at 60000 and the
    blur at 120000 the log gets 60000, without the tick it gets nothing,
    and [e - s] is 120000.  And a tick at 0 in a session started at -1000
    stores the "no session" value: with the blur at 1000 the log gets
    1000 with the tick and 2000 without it. *)
Lemma C6_clock_zero_counterexample :
  let p := set_currentNote (Some "A.md"%string) newPlugin in
  let total (evs : list (Z * Event)) := recorded_total (timeLogs (run evs p)) "A.md" in
  (total [(0, WindowFocus); (60000, IntervalTick); (120000, WindowBlur)] = 60000
   ∧ total [(0, WindowFocus); (120000, WindowBlur)] = 0
   ∧ total [(0, WindowFocus); (60000, IntervalTick); (120000, WindowBlur)] ≠ 120000 - 0)
  ∧ (total [(-1000, WindowFocus); (0, IntervalTick); (1000, WindowBlur)] = 1000
     ∧ total [(-1000, WindowFocus); (1000, WindowBlur)] = 2000
     ∧ total [(-1000, WindowFocus); (0, IntervalTick); (1000, WindowBlur)] ≠ 1000 - -1000).
Proof. vm_compute. repeat split; discriminate. Qed.

(** ** The log only grows *)

Section Growth.

Implicit Types (l : TimeLog) (p : Plugin) (now : Z) (e : Event).

Lemma log_le_refl l : log_le l l.
Proof. intros date note v Hv. exists v. split; [done | lia]. Qed.

Lemma log_le_trans l1 l2 l3 : log_le l1 l2 → log_le l2 l3 → log_le l1 l3.
Proof.
  intros H12 H23 date note v Hv.
  destruct (H12 _ _ _ Hv) as (v2 & Hv2 & Hle2).
  destruct (H23 _ _ _ Hv2) as (v3 & Hv3 & Hle3).
  exists v3. split; [done | lia].
Qed.

Lemma log_le_recordTime now note ms p :
  0 ≤ ms → log_le (timeLogs p) (timeLogs (recordTime now note ms p)).
Proof.
  intros Hms date n v Hv.
  destruct (decide ((date, n) = (today now, note))) as [[= -> ->]|Hne].
  - rewrite log_lookup_recordTime_same. eexists. split; [done|].
    unfold log_value. rewrite Hv. simpl. lia.
  - rewrite log_lookup_recordTime_other by done. exists v. split; [done | lia].
Qed.

Lemma log_nonneg_recordTime now note ms p :
  0 ≤ ms → log_nonneg (timeLogs p) → log_nonneg (timeLogs (recordTime now note ms p)).
Proof.
  intros Hms Hp date n v.
  destruct (decide ((date, n) = (today now, note))) as [[= -> ->]|Hne].
  - rewrite log_lookup_recordTime_same. intros [= <-].
    unfold log_value.
    destruct (log_lookup (timeLogs p) (today now) note) as [v0|] eqn:E; simpl.
    + specialize (Hp _ _ _ E). lia.
    + lia.
  - rewrite log_lookup_recordTime_other by done. apply Hp.
Qed.

(** What a handler does to the log and to the session start. *)
Lemma onWindowBlur_cases now p :
  (onWindowBlur now p = p
   ∨ (sessionStartTime p ≠ 0 ∧ sessionStartTime (onWindowBlur now p) = 0
      ∧ ∃ note, timeLogs (onWindowBlur now p) =
                timeLogs (recordTime now note (now - sessionStartTime p) p))).
Proof.
  destruct (decide (session_in_progress p)) as [H|H].
  - right. apply session_in_progress_iff in H as (note & Hc & Hn & Hs).
    split; [done|]. rewrite (onWindowBlur_closing now p note Hc Hn Hs).
    split; [done|]. by exists note.
  - left. by apply onWindowBlur_idle.
Qed.

Lemma handle_cases now e p :
  (timeLogs (handle now e p) = timeLogs p
   ∨ (sessionStartTime p ≠ 0
      ∧ ∃ note, timeLogs (handle now e p) =
                timeLogs (recordTime now note (now - sessionStartTime p) p)))
  ∧ (sessionStartTime (handle now e p) = 0
     ∨ sessionStartTime (handle now e p) = now
     ∨ sessionStartTime (handle now e p) = sessionStartTime p).
Proof.
  assert (Hfocus : ∀ q, timeLogs (onWindowFocus now q) = timeLogs q
            ∧ (sessionStartTime (onWindowFocus now q) = now
               ∨ sessionStartTime (onWindowFocus now q) = sessionStartTime q)).
  { intros q. unfold onWindowFocus.
    destruct (truthy_note (currentNote q)); simpl; auto. }
  assert (Hblur : (timeLogs (onWindowBlur now p) = timeLogs p
             ∨ (sessionStartTime p ≠ 0
                ∧ ∃ note, timeLogs (onWindowBlur now p) =
                     timeLogs (recordTime now note (now - sessionStartTime p) p)))
            ∧ (sessionStartTime (onWindowBlur now p) = 0
               ∨ sessionStartTime (onWindowBlur now p) = sessionStartTime p)).
  { destruct (onWindowBlur_cases now p) as [->|(Hs & H0 & Hl)]; auto. }
  destruct Hblur as [Hlog Hst].
  destruct e as [| |v| |]; simpl.
  - destruct (Hfocus p) as [-> Hs]. split; [auto | tauto].
  - split; [done | tauto].
  - destruct v as [[filePath|]|]; simpl.
    + destruct (decide (Some filePath ≠ currentNote p)); [|auto].
      destruct (Hfocus (set_currentNote (Some filePath) (onWindowBlur now p)))
        as [-> Hs].
      split; [done|]. simpl in Hs. destruct Hs as [->| ->]; tauto.
    + split; [done | tauto].
    + split; [done | tauto].
  - unfold intervalTick. destruct (Hfocus (onWindowBlur now p)) as [-> Hs].
    split; [done|]. destruct Hs as [->| ->]; tauto.
  - split; [done | tauto].
Qed.

Lemma handle_grows now e p :
  started_by now p →
  log_le (timeLogs p) (timeLogs (handle now e p))
  ∧ (log_nonneg (timeLogs p) → log_nonneg (timeLogs (handle now e p))).
Proof.
  intros Hst. destruct (handle_cases now e p) as [[->|(Hs & note & ->)] _].
  - split; [apply log_le_refl | done].
  - assert (0 ≤ now - sessionStartTime p) by (destruct Hst; lia).
    split; [by apply log_le_recordTime | by apply log_nonneg_recordTime].
Qed.

Lemma run_app (pre post : list (Z * Event)) p :
  run (pre ++ post) p = run post (run pre p).
Proof.
  revert p. induction pre as [|[now e] pre IH]; intros p; [done|]. apply IH.
Qed.

Lemma handle_started_by now e p (ts : list Z) :
  Forall (Z.le now) ts → Forall (fun t => started_by t p) ts →
  Forall (fun t => started_by t (handle now e p)) ts.
Proof.
  intros Hle Hst. destruct (handle_cases now e p) as [_ Hs].
  apply Forall_forall. intros t Ht.
  rewrite Forall_forall in Hle, Hst. specialize (Hle t Ht). specialize (Hst t Ht).
  unfold started_by in *. destruct Hs as [->|[->| ->]]; auto.
Qed.

Lemma Sorted_le_head (t : Z) (ts : list Z) :
  Sorted Z.le (t :: ts) → Forall (Z.le t) ts ∧ Sorted Z.le ts.
Proof.
  intros H. apply Sorted_StronglySorted in H; [|intros x y z; lia].
  apply StronglySorted_inv in H as [Hs Hall].
  split; [done|]. by apply StronglySorted_Sorted.
Qed.

Lemma run_grows (evs : list (Z * Event)) p :
  Sorted Z.le evs.*1 → Forall (fun t => started_by t p) evs.*1 →
  log_le (timeLogs p) (timeLogs (run evs p))
  ∧ (log_nonneg (timeLogs p) → log_nonneg (timeLogs (run evs p))).
Proof.
  revert p. induction evs as [|[now e] evs IH]; intros p Hsorted Hst.
  - split; [apply log_le_refl | done].
  - simpl in *. apply Sorted_le_head in Hsorted as [Hle Hsorted].
    apply Forall_cons in Hst as [Hnow Hst].
    destruct (handle_grows now e p Hnow) as [Hle1 Hnn1].
    destruct (IH (handle now e p) Hsorted (handle_started_by now e p _ Hle Hst))
      as [Hle2 Hnn2].
    split; [by eapply log_le_trans | auto].
Qed.

Lemma run_started_by (pre : list (Z * Event)) (ts : list Z) p :
  Sorted Z.le (pre.*1 ++ ts) → Forall (fun t => started_by t p) (pre.*1 ++ ts) →
  Forall (fun t => started_by t (run pre p)) ts.
Proof.
  revert p. induction pre as [|[now e] pre IH]; intros p Hsorted Hst; [done|].
  simpl in *. apply Sorted_le_head in Hsorted as [Hle Hsorted].
  apply Forall_cons in Hst as [Hnow Hst].
  apply IH; [done|]. by apply handle_started_by.
Qed.

End Growth.

(** C8: along events with non-decreasing timestamps, the first of them no
    earlier than the start of a session already in progress, the log only
    grows from any point of the run to any later one: every (date,
    document) entry stays and its value does not decrease; and a log whose
    values are non-negative stays so. *)
Theorem C8_log_only_grows (pre post : list (Z * Event)) (p : Plugin) :
  Sorted Z.le (pre ++ post).*1 →
  Forall (fun t => started_by t p) (pre ++ post).*1 →
  log_le (timeLogs (run pre p)) (timeLogs (run (pre ++ post) p))
  ∧ (log_nonneg (timeLogs p) →
     log_nonneg (timeLogs (run pre p)) ∧ log_nonneg (timeLogs (run (pre ++ post) p))).
Proof.
  intros Hsorted Hst. rewrite fmap_app in Hsorted, Hst.
  pose proof (run_started_by pre post.*1 p Hsorted Hst) as Hpost.
  assert (Hspre : Sorted Z.le pre.*1 ∧ Sorted Z.le post.*1).
  { clear -Hsorted. induction pre as [|[now e] pre IH]; simpl in *.
    - split; [constructor | done].
    - apply Sorted_le_head in Hsorted as [Hle Hs]. destruct (IH Hs) as [H1 H2].
      split; [|done]. apply Sorted_cons; [done|].
      destruct pre as [|[now' e'] pre]; constructor.
      by apply Forall_cons in Hle as [Hle _]. }
  destruct Hspre as [Hspre Hspost].
  apply Forall_app in Hst as [Hstpre _].
  destruct (run_grows pre p Hspre Hstpre) as [_ Hnn1].
  destruct (run_grows post (run pre p) Hspost Hpost) as [Hle2 Hnn2].
  rewrite run_app. split; [done|]. auto.
Qed.

Lemma C8_log_only_grows_witness :
  let p := mkPlugin {[ "2024-01-01"%string := {[ "A.md"%string := 200000 ]} ]}
                    (Some "A.md"%string) 1704067200000 EmptyString [] in
  let pre := [(1704067260000, IntervalTick)] in
  let post := [(1704067290000, ActiveLeafChange OtherView);
               (1704067300000, WindowFocus)] in
  log_le (timeLogs (run pre p)) (timeLogs (run (pre ++ post) p))
  ∧ log_lookup (timeLogs (run pre p)) "2024-01-01" "A.md" = Some 260000
  ∧ log_lookup (timeLogs (run (pre ++ post) p)) "2024-01-01" "A.md" = Some 290000.
Proof.
  intros p pre post.
  destruct (C8_log_only_grows pre post p) as [Hle _].
  - simpl. repeat first [apply Sorted_cons | apply Sorted_nil
                         | apply HdRel_cons | apply HdRel_nil]; lia.
  - simpl. repeat (apply List.Forall_cons; [right; simpl; lia|]).
    apply List.Forall_nil.
  - split; [exact Hle|]. split; reflexivity.
Defined.

(** ** The plugin against the timer of the specification *)

Section Simulation.

Implicit Types (p : Plugin) (now : Z) (e : Event) (ss : list Spec.Session).

Lemma total_app date note ss1 ss2 :
  Spec.total today date note (ss1 ++ ss2) =
  Spec.total today date note ss1 + Spec.total today date note ss2.
Proof. induction ss1 as [|s ss1 IH]; simpl; [done|]. rewrite IH. lia. Qed.

Lemma adds_nil p p' : timeLogs p' = timeLogs p → adds [] p p'.
Proof. intros H date note. rewrite H. simpl. lia. Qed.

Lemma adds_app ss1 ss2 p1 p2 p3 :
  adds ss1 p1 p2 → adds ss2 p2 p3 → adds (ss1 ++ ss2) p1 p3.
Proof.
  intros H1 H2 date note. rewrite total_app, H2, H1. lia.
Qed.

Lemma sim_blur now p :
  note_ok p →
  ∃ closed, Spec.onFocusLost now (timer_of p) = (timer_of (onWindowBlur now p), closed)
            ∧ adds closed p (onWindowBlur now p)
            ∧ Forall (fun s => Spec.start s = sessionStartTime p
                               ∧ Spec.finish s = now
                               ∧ sessionStartTime p ≠ 0) closed.
Proof.
  intros Hok. unfold note_ok in Hok.
  destruct (decide (session_in_progress p)) as [H|H].
  - apply session_in_progress_iff in H as (d & Hc & Hn & Hs).
    exists [Spec.mkSession d (sessionStartTime p) now].
    split; [|split; [|by repeat constructor]].
    { rewrite (onWindowBlur_closing now p d Hc Hn Hs).
      unfold Spec.onFocusLost, timer_of. simpl. rewrite Hc.
      apply truthy_number_nonzero in Hs. by rewrite Hs. }
    intros date note. rewrite (timeLogs_onWindowBlur_closing now p d Hc Hn Hs).
    cbn [Spec.total]. unfold Spec.attributed.
    cbn [Spec.doc Spec.start Spec.finish].
    destruct (decide ((date, note) = (today now, d))) as [[= -> ->]|Hne].
    + rewrite log_value_recordTime_same, !bool_decide_eq_true_2 by done.
      simpl. lia.
    + rewrite log_value_recordTime_other by done.
      destruct (bool_decide_reflect (d = note)) as [->|]; simpl; [|lia].
      rewrite bool_decide_eq_false_2 by congruence. lia.
  - exists []. rewrite (onWindowBlur_idle now p H).
    split; [|split; [by apply adds_nil | constructor]].
    unfold Spec.onFocusLost, timer_of. simpl.
    destruct (currentNote p) as [d|] eqn:Hc; [|done].
    destruct (truthy_number (sessionStartTime p)) eqn:Hs; [|done].
    exfalso. apply H, session_in_progress_iff. exists d.
    split; [done|]. split; [congruence|]. by apply truthy_number_nonzero.
Qed.

Lemma sim_focus now p :
  note_ok p → now ≠ 0 →
  Spec.onFocusAcquired now (timer_of p) = timer_of (onWindowFocus now p).
Proof.
  intros Hok Hnow. unfold note_ok in Hok.
  unfold Spec.onFocusAcquired, onWindowFocus, timer_of. simpl.
  destruct (currentNote p) as [d|] eqn:Hc; simpl; [|by rewrite Hc].
  assert (Hd : truthy_string d = true) by (apply truthy_string_nonempty; congruence).
  rewrite Hd. simpl. rewrite Hc.
  apply truthy_number_nonzero in Hnow. by rewrite Hnow.
Qed.

Lemma note_ok_onWindowBlur now p : note_ok p → note_ok (onWindowBlur now p).
Proof. unfold note_ok. by rewrite currentNote_onWindowBlur. Qed.

Lemma note_ok_onWindowFocus now p : note_ok p → note_ok (onWindowFocus now p).
Proof. unfold note_ok. by rewrite currentNote_onWindowFocus. Qed.

(** One event: the plugin and the timer of the specification move
    together, and the log gains what the timer completes. *)
Lemma sim_step now e p :
  note_ok p → now ≠ 0 → event_path_ok e →
  ∃ closed, Spec.step now e (timer_of p) = (timer_of (handle now e p), closed)
            ∧ note_ok (handle now e p)
            ∧ adds closed p (handle now e p)
            ∧ Forall (fun s => Spec.start s = sessionStartTime p
                               ∧ Spec.finish s = now
                               ∧ sessionStartTime p ≠ 0) closed.
Proof.
  intros Hok Hnow Hpath.
  destruct (sim_blur now p Hok) as (closed & Hlost & Hadds & Hiv).
  pose proof (note_ok_onWindowBlur now p Hok) as Hokb.
  destruct e as [| |v| |]; simpl.
  - exists []. rewrite (sim_focus now p Hok Hnow).
    split; [done|]. split; [by apply note_ok_onWindowFocus|].
    split; [|constructor]. apply adds_nil, timeLogs_onWindowFocus.
  - by exists closed.
  - unfold Spec.onActiveDocumentChanged, onLeafChange.
    destruct v as [[filePath|]|]; simpl in *.
    + change (Spec.activeDocument (timer_of p)) with (currentNote p).
      destruct (decide (Some filePath ≠ currentNote p)) as [Hne|Heq]; cycle 1.
      { exists []. split; [done|]. split; [done|]. split; [by apply adds_nil | constructor]. }
      exists closed. rewrite Hlost.
      set (q := set_currentNote (Some filePath) (onWindowBlur now p)).
      assert (Hq : note_ok q) by (unfold note_ok, q; simpl; congruence).
      change (Spec.mkTimer (Some filePath) (Spec.sessionStart (timer_of (onWindowBlur now p))))
        with (timer_of q).
      rewrite (sim_focus now q Hq Hnow).
      split; [done|]. split; [by apply note_ok_onWindowFocus|]. split; [|done].
      intros date note. rewrite timeLogs_onWindowFocus. apply Hadds.
    + change (Spec.activeDocument (timer_of p)) with (currentNote p).
      destruct (decide (None ≠ currentNote p)) as [Hne|Heq].
      * exists closed. rewrite Hlost. split; [done|]. split; [done|]. split; done.
      * apply dec_stable in Heq. exists []. rewrite onWindowBlur_idle.
        { split; [by rewrite Heq|]. split; [done|]. split; [by apply adds_nil | constructor]. }
        intros (d & Hc & _)%session_in_progress_iff. congruence.
    + change (Spec.activeDocument (timer_of p)) with (currentNote p).
      destruct (decide (None ≠ currentNote p)) as [Hne|Heq].
      * exists closed. rewrite Hlost. split; [done|]. split; [done|]. split; done.
      * apply dec_stable in Heq. exists []. rewrite onWindowBlur_idle.
        { split; [by rewrite Heq|]. split; [done|]. split; [by apply adds_nil | constructor]. }
        intros (d & Hc & _)%session_in_progress_iff. congruence.
  - exists closed. rewrite Hlost. unfold intervalTick.
    rewrite (sim_focus now _ Hokb Hnow).
    split; [done|]. split; [by apply note_ok_onWindowFocus|]. split; [|done].
    intros date note. rewrite timeLogs_onWindowFocus. apply Hadds.
  - exists closed. split; [done|]. split; [done|]. split; done.
Qed.

Lemma sim_run (evs : list (Z * Event)) p :
  note_ok p →
  Forall (fun te => te.1 ≠ 0 ∧ event_path_ok te.2) evs →
  adds (Spec.sessions evs (timer_of p)) p (run evs p).
Proof.
  revert p. induction evs as [|[now e] evs IH]; intros p Hok Hevs.
  - by apply adds_nil.
  - apply Forall_cons in Hevs as [[Hnow Hpath] Hevs]. simpl in *.
    destruct (sim_step now e p Hok Hnow Hpath) as (closed & -> & Hok' & Hadds & _).
    eapply adds_app; [exact Hadds | by apply IH].
Qed.

Lemma sessions_forward (evs : list (Z * Event)) p :
  note_ok p →
  Forall (fun te => te.1 ≠ 0 ∧ event_path_ok te.2) evs →
  Sorted Z.le evs.*1 →
  Forall (fun t => started_by t p) evs.*1 →
  Forall (fun s => Spec.start s ≤ Spec.finish s) (Spec.sessions evs (timer_of p)).
Proof.
  revert p. induction evs as [|[now e] evs IH]; intros p Hok Hevs Hsorted Hst.
  - constructor.
  - apply Forall_cons in Hevs as [[Hnow Hpath] Hevs]. simpl in *.
    apply Sorted_le_head in Hsorted as [Hle Hsorted].
    apply Forall_cons in Hst as [Hp Hst].
    destruct (sim_step now e p Hok Hnow Hpath) as (closed & -> & Hok' & _ & Hiv).
    apply Forall_app. split.
    + eapply Forall_impl; [exact Hiv|]. intros s (-> & -> & Hs).
      destruct Hp; [done | lia].
    + apply IH; [done.. |]. by apply handle_started_by.
Qed.

End Simulation.

(** C1, amended: for every sequence of focus, blur, document-switch (and
    tick and unload) events whose clock readings are not 0 and whose
    documents have non-empty paths, delivered to a plugin with no current
    note and no session, each entry of the log ends at its initial value
    plus the sum of the lengths of the sessions the Timer/Recorder of the
    specification completes for that document under that date key, the
    key being the one of the instant the session ends; from the empty log
    the entry is that sum.  Each session is counted once, and with
    non-decreasing clock readings no session has a negative length. *)
Theorem C1_log_is_sum_of_sessions (evs : list (Z * Event)) (p : Plugin) :
  currentNote p = None → sessionStartTime p = 0 →
  Forall (fun te => te.1 ≠ 0 ∧ event_path_ok te.2) evs →
  Sorted Z.le evs.*1 →
  let sessions := Spec.sessions evs (Spec.mkTimer None None) in
  (∀ date note,
     log_value (timeLogs (run evs p)) date note =
     log_value (timeLogs p) date note + Spec.total today date note sessions)
  ∧ (timeLogs p = ∅ →
     ∀ date note,
       log_value (timeLogs (run evs p)) date note = Spec.total today date note sessions)
  ∧ Forall (fun s => 0 ≤ Spec.finish s - Spec.start s) sessions.
Proof.
  intros Hc Hs Hevs Hsorted sessions.
  assert (Hok : note_ok p) by (unfold note_ok; congruence).
  assert (Ht : timer_of p = Spec.mkTimer None None).
  { unfold timer_of. by rewrite Hc, Hs. }
  pose proof (sim_run evs p Hok Hevs) as Hadds. rewrite Ht in Hadds.
  split; [exact Hadds|]. split.
  - intros Hempty date note. rewrite (Hadds date note), Hempty.
    unfold log_value, log_lookup. rewrite lookup_empty. reflexivity.
  - unfold sessions. rewrite <- Ht.
    eapply Forall_impl; [apply sessions_forward; try done|].
    + apply Forall_forall. intros t _. by left.
    + intros s Hle. simpl in Hle. lia.
Qed.

Lemma C1_log_is_sum_of_sessions_witness :
  let A := MarkdownView (Some "A.md"%string) in
  let B := MarkdownView (Some "B.md"%string) in
  let s := 1704067200000 in
  let evs := [(s, ActiveLeafChange A); (s + 30000, WindowBlur);
              (s + 50000, WindowFocus); (s + 80000, ActiveLeafChange B);
              (s + 90000, WindowBlur)] in
  Spec.total today "2024-01-01" "A.md" (Spec.sessions evs (Spec.mkTimer None None)) = 60000
  ∧ log_value (timeLogs (run evs newPlugin)) "2024-01-01" "A.md" = 60000
  ∧ log_value (timeLogs (run evs newPlugin)) "2024-01-01" "B.md" = 10000.
Proof.
  intros A B s evs.
  destruct (C1_log_is_sum_of_sessions evs newPlugin) as (_ & Hsum & _).
  - reflexivity.
  - reflexivity.
  - repeat (apply List.Forall_cons;
              [split; [simpl; unfold s; lia | simpl; try discriminate; exact I]|]).
    apply List.Forall_nil.
  - simpl. unfold s.
    repeat first [apply Sorted_cons | apply Sorted_nil
                  | apply HdRel_cons | apply HdRel_nil]; lia.
  - split; [reflexivity|].
    split; rewrite (Hsum eq_refl); reflexivity.
Defined.

(** C1 as stated fails: a document switch to [A] at clock reading 0 and a
    blur at 120000 complete a session of 120000 ms, and the log holds
    nothing for [A]. *)
Lemma C1_clock_zero_counterexample :
  let evs := [(0, ActiveLeafChange (MarkdownView (Some "A.md"%string)));
              (120000, WindowBlur)] in
  Sorted Z.le evs.*1
  ∧ Spec.sessions evs (Spec.mkTimer None None) = [Spec.mkSession "A.md" 0 120000]
  ∧ log_value (timeLogs (run evs newPlugin)) (today 120000) "A.md" ≠
    Spec.total today (today 120000) "A.md" (Spec.sessions evs (Spec.mkTimer None None)).
Proof.
  split; [|split].
  - simpl. repeat first [apply Sorted_cons | apply Sorted_nil
                         | apply HdRel_cons | apply HdRel_nil]; lia.
  - reflexivity.
  - vm_compute. discriminate.
Qed.

(** ** The date key *)

Section DateKey.

Import JsDate.

Lemma lacks_append sep s1 s2 :
  lacks sep (String.append s1 s2) = lacks sep s1 && lacks sep s2.
Proof.
  induction s1 as [|c s1 IH]; simpl; [done|].
  rewrite IH. by rewrite andb_assoc.
Qed.

Lemma split_head_append sep s1 s2 :
  lacks sep s1 = true →
  split_head sep (String.append s1 (String sep s2)) = s1.
Proof.
  induction s1 as [|c s1 IH]; simpl.
  - intros _. by rewrite Ascii.eqb_refl.
  - intros [Hc Hs]%andb_true_iff. apply negb_true_iff in Hc.
    rewrite Hc. by rewrite IH.
Qed.

Lemma digit_not_T n : Ascii.eqb (digit n) "T" = false.
Proof.
  unfold digit.
  assert (H : (Z.to_nat (n mod 10) < 10)%nat) by (pose proof (Z.mod_pos_bound n 10); lia).
  generalize dependent (Z.to_nat (n mod 10)). intros k Hk.
  do 10 (destruct k as [|k]; [reflexivity|]). lia.
Qed.

Lemma lacks_T_pad w n : lacks "T" (pad w n) = true.
Proof.
  revert n. induction w as [|w IH]; intros n; [done|].
  cbn [pad]. rewrite lacks_append, IH. cbn [lacks andb].
  by rewrite digit_not_T.
Qed.

Lemma lacks_T_dash s : lacks "T" (String.append "-" s) = lacks "T" s.
Proof. reflexivity. Qed.

Lemma lacks_T_isoYear y : lacks "T" (isoYear y) = true.
Proof.
  unfold isoYear. destruct ((0 <=? y) && (y <=? 9999)).
  - apply lacks_T_pad.
  - rewrite lacks_append, lacks_T_pad. by destruct (y <? 0).
Qed.

Lemma lacks_T_isoDate c : lacks "T" (isoDate c) = true.
Proof.
  unfold isoDate.
  rewrite lacks_append, lacks_T_isoYear, lacks_T_dash.
  rewrite lacks_append, lacks_T_pad, lacks_T_dash.
  by rewrite lacks_T_pad.
Qed.

(** The key of [recordTime], [updateStatusBar] and [onOpen] is the
    calendar day of the clock reading in UTC. *)
Lemma today_utc_day now : today now = isoDate (civil_from_days (Day now)).
Proof.
  unfold today, toISOString. apply split_head_append, lacks_T_isoDate.
Qed.

Lemma length_append s1 s2 :
  String.length (String.append s1 s2) = (String.length s1 + String.length s2)%nat.
Proof. induction s1 as [|c s1 IH]; simpl; [done|]. by rewrite IH. Qed.

Lemma length_pad w n : String.length (pad w n) = w.
Proof.
  revert n. induction w as [|w IH]; intros n; [done|].
  cbn [pad]. rewrite length_append, IH. cbn [String.length]. lia.
Qed.

(** For the years 0 to 9999 the key has the ten characters of
    YYYY-MM-DD. *)
Lemma today_length now :
  0 ≤ year (civil_from_days (Day now)) ≤ 9999 →
  String.length (today now) = 10%nat.
Proof.
  intros [H0 H1]. rewrite today_utc_day. unfold isoDate, isoYear.
  apply Z.leb_le in H0, H1. rewrite H0, H1. simpl andb. cbv iota.
  rewrite !length_append, !length_pad. reflexivity.
Qed.

End DateKey.

(** C2: at 2024-01-02T04:30:00Z the local clock of a zone five hours
    behind UTC shows 23:30 on 2024-01-01.  [recordTime] of [src/main.ts]
    files the session under "2024-01-02", the UTC day, and leaves the
    bucket of the local day "2024-01-01" untouched; the second copy of
    [recordTime], which asks [moment] for the local day, files it under
    "2024-01-01". *)
Theorem C2_key_is_utc_day_not_local_day :
  let now := 1704169800000 in
  let utcOffset := -300 in
  JsDate.toISOString now = "2024-01-02T04:30:00.000Z"%string
  ∧ today now = "2024-01-02"%string
  ∧ Moment.format_YYYY_MM_DD utcOffset now = "2024-01-01"%string
  ∧ today now ≠ Moment.format_YYYY_MM_DD utcOffset now
  ∧ log_lookup (timeLogs (recordTime now "A.md" 90000 newPlugin))
      "2024-01-02" "A.md" = Some 90000
  ∧ log_lookup (timeLogs (recordTime now "A.md" 90000 newPlugin))
      "2024-01-01" "A.md" = None
  ∧ log_lookup (timeLogs (Moment.recordTime utcOffset now "A.md" 90000 newPlugin))
      "2024-01-01" "A.md" = Some 90000.
Proof. vm_compute. repeat split; discriminate. Qed.

(** * Further properties of the handlers *)

Section Handlers.

Implicit Types (p : Plugin) (now later : Z) (e : Event).

Lemma timeLogs_handle now e p :
  timeLogs (handle now e p) = timeLogs (onWindowBlur now p)
  ∨ handle now e p = onWindowFocus now p
  ∨ handle now e p = p.
Proof.
  destruct e as [| |v| |]; simpl; auto.
  - destruct v as [[filePath|]|]; simpl; auto.
    destruct (decide (Some filePath ≠ currentNote p)); auto.
    left. by rewrite timeLogs_onWindowFocus.
  - left. unfold intervalTick. by rewrite timeLogs_onWindowFocus.
Qed.

Lemma statusEl_onWindowFocus now p : statusEl (onWindowFocus now p) = statusEl p.
Proof. unfold onWindowFocus. by destruct (truthy_note (currentNote p)). Qed.

Lemma saved_onWindowFocus now p : saved (onWindowFocus now p) = saved p.
Proof. unfold onWindowFocus. by destruct (truthy_note (currentNote p)). Qed.

Lemma not_in_progress_after_blur now p : ¬ session_in_progress (onWindowBlur now p).
Proof.
  destruct (sessionStartTime_onWindowBlur now p) as [H0|[-> H]]; [|done].
  intros (note & _ & _ & Hs)%session_in_progress_iff. by apply Hs.
Qed.

End Handlers.

(** X1: a blur that follows a blur does nothing, whatever the two clock
    readings: the first one has closed the session, if there was one. *)
Theorem X1_blur_after_blur (now later : Z) (p : Plugin) :
  onWindowBlur later (onWindowBlur now p) = onWindowBlur now p.
Proof. apply onWindowBlur_idle, not_in_progress_after_blur. Qed.

(** X2: a second active-leaf-change notification for the same view changes
    nothing, whenever it arrives. *)
Theorem X2_leaf_change_twice (now later : Z) (v : View) (p : Plugin) :
  onLeafChange later v (onLeafChange now v p) = onLeafChange now v p.
Proof.
  assert (Hnone : ∀ q, onLeafChange later OtherView (set_currentNote None q) =
                       set_currentNote None q
                     ∧ onLeafChange later (MarkdownView None) (set_currentNote None q) =
                       set_currentNote None q).
  { intros q. simpl. rewrite onWindowBlur_idle; [done|].
    by intros (note & Hc & _)%session_in_progress_iff. }
  destruct v as [[filePath|]|]; [|apply Hnone..].
  assert (Hsame : ∀ t q, currentNote q = Some filePath →
                    onLeafChange t (MarkdownView (Some filePath)) q = q).
  { intros t q Hq. unfold onLeafChange. rewrite Hq.
    destruct (decide (Some filePath ≠ Some filePath)) as [Hbad|_]; [|done].
    by destruct Hbad. }
  destruct (decide (Some filePath ≠ currentNote p)) as [Hne|Heq].
  - apply Hsame. unfold onLeafChange.
    destruct (decide (Some filePath ≠ currentNote p)); [|done].
    by rewrite currentNote_onWindowFocus.
  - apply dec_stable in Heq. symmetry in Heq.
    rewrite (Hsame now p Heq). exact (Hsame later p Heq).
Qed.

(** X3: while no note is current ([null], or the empty path), no run of
    events that make no document current records anything: the log, the
    session start and the status bar stay as they are. *)
Theorem X3_nothing_recorded_without_note (evs : list (Z * Event)) (p : Plugin) :
  truthy_note (currentNote p) = false →
  Forall (fun te => opens_nothing te.2) evs →
  timeLogs (run evs p) = timeLogs p
  ∧ sessionStartTime (run evs p) = sessionStartTime p
  ∧ statusEl (run evs p) = statusEl p
  ∧ truthy_note (currentNote (run evs p)) = false.
Proof.
  revert p. induction evs as [|[now e] evs IH]; intros p Hn Hevs; [done|].
  apply Forall_cons in Hevs as [He Hevs]. simpl in *.
  assert (Hidle : onWindowBlur now p = p).
  { apply onWindowBlur_idle. unfold session_in_progress. by rewrite Hn. }
  assert (Hfocus : onWindowFocus now p = p) by by apply onWindowFocus_inactive.
  assert (Hstep : timeLogs (handle now e p) = timeLogs p
                  ∧ sessionStartTime (handle now e p) = sessionStartTime p
                  ∧ statusEl (handle now e p) = statusEl p
                  ∧ truthy_note (currentNote (handle now e p)) = false).
  { destruct e as [| |v| |]; simpl.
    - by rewrite Hfocus.
    - by rewrite Hidle.
    - destruct v as [[filePath|]|]; simpl in *; rewrite ?Hidle; [|done..].
      subst filePath. by destruct (decide (Some EmptyString ≠ currentNote p)).
    - unfold intervalTick. by rewrite Hidle, Hfocus.
    - unfold onunload. by rewrite Hidle. }
  destruct Hstep as (Hl & Hs & Ht & Hn').
  destruct (IH (handle now e p) Hn' Hevs) as (IH1 & IH2 & IH3 & IH4).
  by rewrite IH1, IH2, IH3, Hl, Hs, Ht.
Qed.

Lemma X3_nothing_recorded_without_note_witness :
  let p := mkPlugin {[ "2024-01-01"%string := {[ "A.md"%string := 200000 ]} ]}
                    None 0 EmptyString [] in
  let evs := [(1704067200000, WindowFocus); (1704067260000, IntervalTick);
              (1704067270000, ActiveLeafChange OtherView);
              (1704067320000, IntervalTick); (1704067330000, WindowBlur);
              (1704067340000, Unload)] in
  timeLogs (run evs p) = timeLogs p
  ∧ sessionStartTime (run evs p) = 0.
Proof.
  intros p evs.
  destruct (X3_nothing_recorded_without_note evs p) as (Hl & Hs & _).
  - reflexivity.
  - repeat (apply List.Forall_cons; [exact I|]). apply List.Forall_nil.
  - split; [exact Hl | exact Hs].
Defined.

(** X4: a handler changes at most one entry of the log: the one of the
    note that was current when the event arrived, under the date key of the
    event, and only when a session was in progress and the event is not a
    window focus. *)
Theorem X4_only_the_current_entry_changes (now : Z) (e : Event) (p : Plugin)
    (date note : string) :
  log_lookup (timeLogs (handle now e p)) date note ≠ log_lookup (timeLogs p) date note →
  date = today now ∧ currentNote p = Some note ∧ session_in_progress p
  ∧ e ≠ WindowFocus.
Proof.
  intros Hchg.
  assert (He : e ≠ WindowFocus).
  { intros ->. apply Hchg. simpl. by rewrite timeLogs_onWindowFocus. }
  destruct (timeLogs_handle now e p) as [Hl|[Hl|Hl]]; cycle 1.
  { exfalso. apply Hchg. by rewrite Hl, timeLogs_onWindowFocus. }
  { exfalso. apply Hchg. by rewrite Hl. }
  rewrite Hl in Hchg.
  destruct (decide (session_in_progress p)) as [Hp|Hp]; cycle 1.
  { exfalso. apply Hchg. by rewrite onWindowBlur_idle. }
  apply session_in_progress_iff in Hp as Hp'. destruct Hp' as (n & Hc & Hn & Hs).
  rewrite (timeLogs_onWindowBlur_closing now p n Hc Hn Hs) in Hchg.
  destruct (decide ((date, note) = (today now, n))) as [[= -> ->]|Hne]; [done|].
  exfalso. apply Hchg. by apply log_lookup_recordTime_other.
Qed.

Lemma X4_only_the_current_entry_changes_witness :
  let p := mkPlugin ∅ (Some "A.md"%string) 1704067200000 EmptyString [] in
  let now := 1704067290000 in
  let e := ActiveLeafChange (MarkdownView (Some "B.md"%string)) in
  log_lookup (timeLogs (handle now e p)) "2024-01-01" "A.md" = Some 90000
  ∧ "2024-01-01"%string = today now ∧ currentNote p = Some "A.md"%string.
Proof.
  intros p now e.
  destruct (X4_only_the_current_entry_changes now e p "2024-01-01" "A.md")
    as (Hd & Hc & _); [vm_compute; discriminate|].
  split; [reflexivity|]. split; [exact Hd | exact Hc].
Defined.

(** ** Persistence *)

Section Persistence.

Implicit Types (p q : Plugin) (now : Z) (e : Event) (loaded : TimeLog).

Lemma synced_frame loaded p q :
  timeLogs q = timeLogs p → saved q = saved p → synced loaded p → synced loaded q.
Proof. unfold synced. by intros -> ->. Qed.

Lemma synced_onWindowBlur loaded now p :
  synced loaded p → synced loaded (onWindowBlur now p).
Proof.
  intros Hp. destruct (decide (session_in_progress p)) as [H|H].
  - apply session_in_progress_iff in H as (note & Hc & Hn & Hs).
    by rewrite (onWindowBlur_closing now p note Hc Hn Hs).
  - by rewrite onWindowBlur_idle.
Qed.

Lemma synced_handle loaded now e p :
  synced loaded p → synced loaded (handle now e p).
Proof.
  intros Hp. pose proof (synced_onWindowBlur loaded now p Hp) as Hb.
  assert (Hf : ∀ q, synced loaded q → synced loaded (onWindowFocus now q)).
  { intros q. apply synced_frame;
      [apply timeLogs_onWindowFocus | apply saved_onWindowFocus]. }
  destruct e as [| |v| |]; simpl; auto.
  - destruct v as [[filePath|]|]; simpl; auto.
    destruct (decide (Some filePath ≠ currentNote p)); auto.
  - unfold intervalTick. auto.
  - done.
Qed.

End Persistence.

(** X5: whatever the events, the log never runs ahead of what was handed
    to [saveData]: once a snapshot has been handed over, the latest one is
    the log as it stands, and before that the log is still the loaded one. *)
Theorem X5_log_is_always_saved (loaded : TimeLog) (evs : list (Z * Event)) (p : Plugin) :
  synced loaded p → synced loaded (run evs p).
Proof.
  revert p. induction evs as [|[now e] evs IH]; intros p Hp; [done|].
  simpl. by apply IH, synced_handle.
Qed.

Lemma X5_log_is_always_saved_witness :
  let evs := [(1704067200000, ActiveLeafChange (MarkdownView (Some "A.md"%string)));
              (1704067260000, IntervalTick);
              (1704067290000, ActiveLeafChange OtherView);
              (1704067300000, WindowFocus)] in
  synced ∅ newPlugin
  ∧ synced ∅ (run evs newPlugin)
  ∧ length (saved (run evs newPlugin)) = 2%nat
  ∧ log_lookup (timeLogs (run evs newPlugin)) "2024-01-01" "A.md" = Some 90000.
Proof.
  intros evs.
  assert (H0 : synced ∅ newPlugin) by reflexivity.
  pose proof (X5_log_is_always_saved ∅ evs newPlugin H0) as H.
  split; [exact H0|]. split; [exact H|]. split; reflexivity.
Defined.

(** ** The periodic tick, again *)

(** X7: the tick does not know whether the window has the focus.  With a
    current note and no session (as after a window blur), a tick at a clock
    reading [u] other than 0 records nothing but starts a session at [u];
    the next tick, at [u'], credits the note with [u' - u]. *)
Theorem X7_tick_resumes_timing (p : Plugin) (A : string) (u u' : Z) :
  currentNote p = Some A → A ≠ EmptyString → sessionStartTime p = 0 → u ≠ 0 →
  let q := intervalTick u p in
  timeLogs q = timeLogs p
  ∧ sessionStartTime q = u
  ∧ session_in_progress q
  ∧ log_lookup (timeLogs (intervalTick u' q)) (today u') A =
    Some (log_value (timeLogs p) (today u') A + (u' - u)).
Proof.
  intros Hc Hn Hs Hu q.
  assert (Hidle : onWindowBlur u p = p).
  { apply onWindowBlur_idle.
    intros (? & _ & _ & H)%session_in_progress_iff. by apply H. }
  assert (Hq : q = set_sessionStartTime u p).
  { unfold q, intervalTick. rewrite Hidle. by apply (onWindowFocus_active u p A). }
  split; [by rewrite Hq|]. split; [by rewrite Hq|]. split.
  - apply session_in_progress_iff. exists A. by rewrite Hq.
  - destruct (timeLogs_intervalTick_closing u' q A) as [_ Hl];
      [by rewrite Hq | done | by rewrite Hq |].
    rewrite Hl, log_lookup_recordTime_same. by rewrite Hq.
Qed.

Lemma X7_tick_resumes_timing_witness :
  let p0 := mkPlugin ∅ (Some "A.md"%string) 1704067200000 EmptyString [] in
  let p := onWindowBlur 1704067230000 p0 in
  log_lookup (timeLogs p) "2024-01-01" "A.md" = Some 30000
  ∧ log_lookup (timeLogs (run [(1704067260000, IntervalTick);
                               (1704067320000, IntervalTick)] p))
      "2024-01-01" "A.md" = Some 90000.
Proof.
  intros p0 p. split; [reflexivity|].
  destruct (X7_tick_resumes_timing p "A.md"%string 1704067260000 1704067320000)
    as (_ & _ & _ & H); [reflexivity | discriminate | reflexivity | lia |].
  exact H.
Defined.

(** X8: any number of ticks, at clock readings other than 0 and in any
    order, between the start [s] of a session and the blur at [e], leave
    the total recorded for the note at [e - s] more than before. *)
Theorem X8_any_number_of_ticks (ticks : list Z) (p : Plugin) (A : string) (e : Z) :
  currentNote p = Some A → A ≠ EmptyString → sessionStartTime p ≠ 0 →
  Forall (fun u => u ≠ 0) ticks →
  recorded_total (timeLogs (run (ticks_then_blur ticks e) p)) A =
  recorded_total (timeLogs p) A + (e - sessionStartTime p).
Proof.
  revert p. induction ticks as [|u ticks IH]; intros p Hc Hn Hs Hticks.
  - unfold ticks_then_blur. simpl.
    rewrite (timeLogs_onWindowBlur_closing e p A Hc Hn Hs).
    apply recorded_total_recordTime.
  - apply Forall_cons in Hticks as [Hu Hticks].
    destruct (timeLogs_intervalTick_closing u p A Hc Hn Hs) as [Htick Hlog].
    change (run (ticks_then_blur (u :: ticks) e) p)
      with (run (ticks_then_blur ticks e) (intervalTick u p)).
    rewrite IH; [| |done| |done].
    + rewrite Hlog, recorded_total_recordTime, Htick. simpl. lia.
    + unfold intervalTick.
      by rewrite currentNote_onWindowFocus, currentNote_onWindowBlur.
    + by rewrite Htick.
Qed.

Lemma X8_any_number_of_ticks_witness :
  let p := mkPlugin ∅ (Some "A.md"%string) 1704153500000 EmptyString [] in
  let ticks := [1704153560000; 1704153620000; 1704153680000] in
  recorded_total (timeLogs (run (ticks_then_blur ticks 1704153700000) p)) "A.md" = 200000
  ∧ log_lookup (timeLogs (run (ticks_then_blur ticks 1704153700000) p))
      "2024-01-01" "A.md" = Some 60000
  ∧ log_lookup (timeLogs (run (ticks_then_blur ticks 1704153700000) p))
      "2024-01-02" "A.md" = Some 140000.
Proof.
  intros p ticks. split; [|split; reflexivity].
  apply (X8_any_number_of_ticks ticks p "A.md"%string 1704153700000);
    [reflexivity | discriminate | discriminate |].
  repeat (apply List.Forall_cons; [lia|]). apply List.Forall_nil.
Defined.

(** ** Sessions and the current note *)

(** X9: a session start is pending only while a note is current: the
    handlers keep this, so along every run from such a state "a session is
    in progress" and "the session start is not 0" say the same. *)
Theorem X9_session_needs_note (evs : list (Z * Event)) (p : Plugin) :
  coherent p →
  coherent (run evs p)
  ∧ (session_in_progress (run evs p) ↔ sessionStartTime (run evs p) ≠ 0).
Proof.
  assert (Hstep : ∀ now e q, coherent q → coherent (handle now e q)).
  { intros now e q Hq.
    assert (Hb : sessionStartTime (onWindowBlur now q) = 0).
    { destruct (sessionStartTime_onWindowBlur now q) as [H|[-> H]]; [done|].
      destruct (decide (sessionStartTime q = 0)) as [|Hs]; [done|].
      exfalso. apply H. unfold session_in_progress.
      rewrite (Hq Hs). by apply truthy_number_nonzero. }
    assert (Hf : ∀ r, coherent r → coherent (onWindowFocus now r)).
    { intros r Hr. unfold onWindowFocus.
      destruct (truthy_note (currentNote r)) eqn:E; [|done].
      intros _. exact E. }
    assert (Hz : ∀ r, sessionStartTime r = 0 → coherent r) by (intros r Hr H; done).
    destruct e as [| |v| |]; simpl.
    - by apply Hf.
    - by apply Hz.
    - destruct v as [[filePath|]|]; simpl; [|by apply Hz..].
      destruct (decide (Some filePath ≠ currentNote q)); [|done].
      by apply Hf, Hz.
    - by apply Hf, Hz.
    - by apply Hz. }
  intros Hp.
  assert (Hrun : coherent (run evs p)).
  { revert p Hp. induction evs as [|[now e] evs IH]; intros p Hp; [done|].
    simpl. apply IH, Hstep, Hp. }
  split; [exact Hrun|]. unfold session_in_progress.
  rewrite andb_true_iff, truthy_number_nonzero. split; [tauto|].
  intros Hs. split; [by apply Hrun | done].
Qed.

Lemma X9_session_needs_note_witness :
  let evs := [(1704067200000, ActiveLeafChange (MarkdownView (Some "A.md"%string)));
              (1704067290000, ActiveLeafChange OtherView);
              (1704067300000, WindowFocus); (1704067360000, IntervalTick)] in
  coherent newPlugin
  ∧ coherent (run evs newPlugin)
  ∧ sessionStartTime (run evs newPlugin) = 0.
Proof.
  intros evs.
  assert (H0 : coherent newPlugin) by (intros H; by destruct H).
  destruct (X9_session_needs_note evs newPlugin H0) as [H _].
  split; [exact H0|]. split; [exact H | reflexivity].
Defined.

(** X10: the elapsed time is not clamped: when the clock reads less at the
    blur than it did at the session start, the entry of the note goes down
    by the difference. *)
Theorem X10_clock_set_back (now : Z) (p : Plugin) (A : string) :
  currentNote p = Some A → A ≠ EmptyString → sessionStartTime p ≠ 0 →
  now < sessionStartTime p →
  log_value (timeLogs (onWindowBlur now p)) (today now) A =
    log_value (timeLogs p) (today now) A - (sessionStartTime p - now)
  ∧ log_value (timeLogs (onWindowBlur now p)) (today now) A <
    log_value (timeLogs p) (today now) A.
Proof.
  intros Hc Hn Hs Hback.
  rewrite (timeLogs_onWindowBlur_closing now p A Hc Hn Hs).
  rewrite log_value_recordTime_same. lia.
Qed.

Lemma X10_clock_set_back_witness :
  let p := mkPlugin {[ "2024-01-01"%string := {[ "A.md"%string := 200000 ]} ]}
                    (Some "A.md"%string) 1704067290000 EmptyString [] in
  log_value (timeLogs (onWindowBlur 1704067200000 p)) "2024-01-01" "A.md" = 110000.
Proof.
  intros p.
  destruct (X10_clock_set_back 1704067200000 p "A.md"%string) as [H _];
    [reflexivity | discriminate | discriminate | simpl; lia |].
  exact H.
Defined.

(** X11: the text of the status bar changes only when a handler ends a
    session; in particular it is not refreshed when the day changes. *)
Theorem X11_status_changes_only_at_session_end (now : Z) (e : Event) (p : Plugin) :
  statusEl (handle now e p) ≠ statusEl p → ends_session e p.
Proof.
  intros Hchg.
  assert (Hp : session_in_progress p).
  { destruct (decide (session_in_progress p)) as [|Hidle]; [done|].
    exfalso. apply Hchg. apply (onWindowBlur_idle now) in Hidle.
    destruct e as [| |v| |]; simpl; rewrite ?statusEl_onWindowFocus; try done.
    - by rewrite Hidle.
    - destruct v as [[filePath|]|]; simpl; rewrite ?Hidle; try done.
      destruct (decide (Some filePath ≠ currentNote p)); [|done].
      by rewrite statusEl_onWindowFocus.
    - unfold intervalTick. by rewrite statusEl_onWindowFocus, Hidle.
    - unfold onunload. by rewrite Hidle. }
  split; [exact Hp|].
  destruct e as [| |v| |]; try done.
  - apply Hchg. simpl. apply statusEl_onWindowFocus.
  - destruct v as [[filePath|]|]; try done.
    intros Heq. apply Hchg. simpl.
    by destruct (decide (Some filePath ≠ currentNote p)).
Qed.

Lemma X11_status_changes_only_at_session_end_witness :
  let p := mkPlugin ∅ (Some "A.md"%string) 1704067200000 (status_text 0) [] in
  statusEl (handle 1704067290000 Unload p) = status_text 2
  ∧ ends_session Unload p.
Proof.
  intros p. split; [reflexivity|].
  apply (X11_status_changes_only_at_session_end 1704067290000 Unload p).
  vm_compute. discriminate.
Defined.

(** ** Chart and status bar *)

Section Rounding.

Lemma reduce_sum_sum_Z (xs : list Z) : reduce_sum xs = sum_Z xs.
Proof.
  unfold reduce_sum, sum_Z.
  assert (H : ∀ acc, foldl (fun a b => a + b) acc xs = acc + foldr Z.add 0 xs).
  { induction xs as [|x xs IH]; intros acc; simpl; [lia|]. rewrite IH. lia. }
  by rewrite H.
Qed.

(** The values of the slices are the rounded values of today's bucket, in
    the order of its enumeration. *)
Lemma onOpen_values (now : Z) (p : Plugin) :
  (onOpen now p).*2 =
  (fun v => Math_round (quot v 60000))
    <$> Object_values (default ∅ (timeLogs p !! today now)).
Proof.
  rewrite onOpen_slices. unfold Object_keys, Object_values.
  rewrite <- !list_fmap_compose. apply list_fmap_ext.
  intros i [note v] Hi. simpl.
  apply list_elem_of_lookup_2, elem_of_map_to_list in Hi. by rewrite Hi.
Qed.

Lemma rounded_sum_bounds (vs : list Z) :
  sum_Z vs - 29999 * Z.of_nat (length vs)
    ≤ 60000 * sum_Z ((fun v => Math_round (quot v 60000)) <$> vs)
    ≤ sum_Z vs + 30000 * Z.of_nat (length vs).
Proof.
  induction vs as [|v vs IH]; [simpl; lia|].
  rewrite fmap_cons. cbn [sum_Z foldr length]. fold (sum_Z vs).
  fold (sum_Z ((fun v => Math_round (quot v 60000)) <$> vs)).
  rewrite Math_round_quot_60000.
  pose proof (Z.div_mod (v + 30000) 60000 ltac:(lia)).
  pose proof (Z.mod_pos_bound (v + 30000) 60000 ltac:(lia)).
  lia.
Qed.

End Rounding.

(** X12: the minutes of the chart slices and the minutes of the status bar
    are rounded separately.  On the same log and day the sum of the slices
    differs from the status bar figure by at most half the number of
    slices; with a single slice the two agree. *)
Theorem X12_chart_vs_status_bar (now : Z) (p : Plugin) :
  let slices := (onOpen now p).*2 in
  let mins := Math_round (quot (day_total (timeLogs p) (today now)) 60000) in
  statusEl (updateStatusBar now p) = status_text mins
  ∧ 2 * Z.abs (sum_Z slices - mins) ≤ Z.of_nat (length slices)
  ∧ (length slices = 1%nat → sum_Z slices = mins).
Proof.
  intros slices mins. split; [reflexivity|].
  assert (Hbound : 2 * Z.abs (sum_Z slices - mins) ≤ Z.of_nat (length slices)).
  { unfold slices, mins, day_total. rewrite onOpen_values, reduce_sum_sum_Z.
    set (vs := Object_values (default ∅ (timeLogs p !! today now))).
    pose proof (rounded_sum_bounds vs) as Hs.
    rewrite length_fmap, Math_round_quot_60000.
    pose proof (Z.div_mod (sum_Z vs + 30000) 60000 ltac:(lia)).
    pose proof (Z.mod_pos_bound (sum_Z vs + 30000) 60000 ltac:(lia)).
    lia. }
  split; [exact Hbound|]. intros H1. rewrite H1 in Hbound. lia.
Qed.

Lemma X12_chart_vs_status_bar_witness :
  let p := mkPlugin {[ "2024-01-01"%string :=
                         {[ "A.md"%string := 30000; "B.md"%string := 30000;
                            "C.md"%string := 30000 ]} ]}
                    None 0 EmptyString [] in
  let now := 1704067200000 in
  sum_Z (onOpen now p).*2 = 3
  ∧ statusEl (updateStatusBar now p) = status_text 2
  ∧ 2 * Z.abs (sum_Z (onOpen now p).*2 - 2) ≤ 3.
Proof.
  intros p now.
  destruct (X12_chart_vs_status_bar now p) as (_ & Hbound & _).
  split; [reflexivity|]. split; [reflexivity|]. exact Hbound.
Defined.

(** ** The date key, again *)

Lemma civil_fields_range (d : Z) :
  0 ≤ d ≤ 2932896 →
  1970 ≤ JsDate.year (JsDate.civil_from_days d) ≤ 9999
  ∧ 1 ≤ JsDate.month (JsDate.civil_from_days d) ≤ 12
  ∧ 1 ≤ JsDate.date (JsDate.civil_from_days d) ≤ 31.
Proof.
  intros Hd. unfold JsDate.civil_from_days. cbv zeta.
  cbn [JsDate.year JsDate.month JsDate.date].
  repeat match goal with
         | |- context [if ?b then _ else _] =>
             match b with
             | (?x <? ?y) => destruct (Z.ltb_spec x y)
             | (?x <=? ?y) => destruct (Z.leb_spec x y)
             end
         end; Z.div_mod_to_equations; lia.
Qed.

(** X13: the time of day never reaches the key: two clock readings with
    the same UTC day number, floor(now / 86400000), have the same key, so
    sessions that end on one UTC day share a bucket. *)
Theorem X13_key_is_utc_day (now now' : Z) :
  now / 86400000 = now' / 86400000 → today now = today now'.
Proof.
  intros H. rewrite !today_utc_day. unfold JsDate.Day, JsDate.msPerDay.
  by rewrite H.
Qed.

Lemma X13_key_is_utc_day_witness :
  today 1704067200000 = today 1704153599999.
Proof. apply X13_key_is_utc_day. reflexivity. Defined.

(** X14: for a clock between 1970-01-01T00:00:00.000Z and
    9999-12-31T23:59:59.999Z the key is ten characters long: a year of
    four digits, a month from 01 to 12 and a day from 01 to 31, joined by
    hyphens. *)
Theorem X14_key_shape (now : Z) :
  0 ≤ now < 253402300800000 →
  String.length (today now) = 10%nat
  ∧ ∃ y m d, 1970 ≤ y ≤ 9999 ∧ 1 ≤ m ≤ 12 ∧ 1 ≤ d ≤ 31
      ∧ today now =
        String.append (JsDate.pad 4 y)
          (String.append "-" (String.append (JsDate.pad 2 m)
            (String.append "-" (JsDate.pad 2 d)))).
Proof.
  intros Hnow.
  assert (Hd : 0 ≤ JsDate.Day now ≤ 2932896).
  { unfold JsDate.Day, JsDate.msPerDay. Z.div_mod_to_equations. lia. }
  destruct (civil_fields_range _ Hd) as (Hy & Hm & Hdd).
  split; [apply today_length; lia|].
  exists (JsDate.year (JsDate.civil_from_days (JsDate.Day now))),
         (JsDate.month (JsDate.civil_from_days (JsDate.Day now))),
         (JsDate.date (JsDate.civil_from_days (JsDate.Day now))).
  split; [done|]. split; [done|]. split; [done|].
  rewrite today_utc_day. unfold JsDate.isoDate, JsDate.isoYear.
  destruct (Z.leb_spec 0 (JsDate.year (JsDate.civil_from_days (JsDate.Day now))));
    [|lia].
  destruct (Z.leb_spec (JsDate.year (JsDate.civil_from_days (JsDate.Day now))) 9999);
    [done | lia].
Qed.

Lemma X14_key_shape_witness :
  String.length (today 1704169800000) = 10%nat
  ∧ today 1704169800000 = "2024-01-02"%string.
Proof.
  destruct (X14_key_shape 1704169800000) as [H _]; [lia|].
  split; [exact H | reflexivity].
Defined.

(** ** The second copy: settings and log in one data file *)

Section SharedFile.

Import Settings.

Implicit Types (p : Settings.Plugin) (a : Action) (utcOffset now : Z).

(** A date key is not the property name [sortBy]: it contains a hyphen. *)
Lemma date_key_not_sortBy utcOffset now :
  Moment.format_YYYY_MM_DD utcOffset now ≠ "sortBy"%string.
Proof.
  intros H.
  assert (Hl : JsDate.lacks "-" (Moment.format_YYYY_MM_DD utcOffset now) = true)
    by by rewrite H.
  unfold Moment.format_YYYY_MM_DD in Hl. cbv zeta in Hl.
  rewrite lacks_append in Hl. apply andb_true_iff in Hl as [_ Hl].
  discriminate Hl.
Qed.

Lemma kept_refl p : kept p p.
Proof. by split. Qed.

Lemma kept_trans p q r : kept p q → kept q r → kept p r.
Proof. intros [H1 H2] [H3 H4]. split; congruence. Qed.

Lemma kept_onWindowFocus now p : kept p (Settings.onWindowFocus now p).
Proof.
  unfold Settings.onWindowFocus. destruct (truthy_note (Settings.currentNote p));
    by split.
Qed.

Lemma kept_onWindowBlur utcOffset now p : kept p (Settings.onWindowBlur utcOffset now p).
Proof.
  unfold Settings.onWindowBlur.
  destruct (Settings.currentNote p) as [note|]; [|by split].
  destruct (truthy_string note && truthy_number (Settings.sessionStartTime p));
    by split.
Qed.

Lemma kept_handle utcOffset now a p : kept p (handle utcOffset now a p).
Proof.
  pose proof (kept_onWindowBlur utcOffset now p) as Hb.
  destruct a as [e|value]; [|by split].
  destruct e as [| |v| |]; simpl.
  - apply kept_onWindowFocus.
  - exact Hb.
  - destruct v as [[filePath|]|]; simpl; [|exact Hb..].
    destruct (decide (Some filePath ≠ Settings.currentNote p)); [|apply kept_refl].
    eapply kept_trans; [exact Hb|].
    eapply kept_trans; [|apply kept_onWindowFocus]. by split.
  - eapply kept_trans; [exact Hb | apply kept_onWindowFocus].
  - exact Hb.
Qed.

Lemma sortBy_settings_onload utcOffset now (file : option Blob) :
  sortBy (settings (Settings.onload utcOffset now file)) =
  Some (default "note"%string (file ≫= sortBy)).
Proof. by destruct file as [[[v|] b]|]. Qed.

Lemma kept_run utcOffset (acts : list (Z * Action)) p :
  kept p (Settings.run utcOffset acts p).
Proof.
  revert p. induction acts as [|[now a] acts IH]; intros p; [apply kept_refl|].
  simpl. eapply kept_trans; [apply kept_handle | apply IH].
Qed.

End SharedFile.

(** X16: in the second copy of the plugin [onunload] hands the log object
    to [saveData], and that object still carries the [sortBy] it was
    loaded with.  Whatever "Sort Chart By" values were chosen during the
    run, after the unload the data file holds the [sortBy] of the previous
    start (none if there was none), and the next [onload] comes up with the
    same setting as the previous one. *)
Theorem X16_sort_setting_reverts_on_unload
    (utcOffset t0 now later : Z) (file : option Settings.Blob)
    (acts : list (Z * Settings.Action)) :
  let p0 := Settings.onload utcOffset t0 file in
  let pu := Settings.onunload utcOffset now (Settings.run utcOffset acts p0) in
  Settings.data pu = Some (Settings.timeLogs pu)
  ∧ Settings.sortBy (Settings.timeLogs pu) = file ≫= Settings.sortBy
  ∧ Settings.sortBy (Settings.settings (Settings.onload utcOffset later (Settings.data pu)))
    = Settings.sortBy (Settings.settings p0).
Proof.
  intros p0 pu.
  assert (Hdata : Settings.data pu = Some (Settings.timeLogs pu)) by done.
  assert (Hsort : Settings.sortBy (Settings.timeLogs pu) = file ≫= Settings.sortBy).
  { destruct (kept_run utcOffset acts p0) as [Hrun _].
    destruct (kept_onWindowBlur utcOffset now (Settings.run utcOffset acts p0))
      as [Hblur _].
    change (Settings.timeLogs pu)
      with (Settings.timeLogs
              (Settings.onWindowBlur utcOffset now (Settings.run utcOffset acts p0))).
    rewrite Hblur, Hrun. by destruct file. }
  split; [exact Hdata|]. split; [exact Hsort|].
  rewrite Hdata. unfold p0. rewrite !sortBy_settings_onload.
  change (Some (Settings.timeLogs pu) ≫= Settings.sortBy)
    with (Settings.sortBy (Settings.timeLogs pu)).
  by rewrite Hsort.
Qed.

(** X17: in the second copy of the plugin the settings object is built at
    [onload] from a parse of the data file of its own and is what [onChange]
    hands to [saveData].  After a change of "Sort Chart By" the data file
    therefore holds the buckets as they were loaded: the time recorded
    since the start is in memory only, until a session ends or the plugin
    unloads. *)
Theorem X17_sort_change_stores_the_loaded_log
    (utcOffset t0 : Z) (file : option Settings.Blob)
    (acts : list (Z * Settings.Action)) (value : string) :
  let p := Settings.run utcOffset acts (Settings.onload utcOffset t0 file) in
  Settings.data (Settings.onChange value p) =
    Some (Settings.mkBlob (Some value) (Settings.buckets (default Settings.empty file)))
  ∧ Settings.timeLogs (Settings.onChange value p) = Settings.timeLogs p.
Proof.
  intros p. split; [|done].
  destruct (kept_run utcOffset acts (Settings.onload utcOffset t0 file)) as [_ Hb].
  unfold Settings.onChange, Settings.saveSettings. simpl.
  fold p in Hb. rewrite Hb. simpl.
  by rewrite (right_id_L ∅ (∪)).
Qed.

(** ** The second copy: slice names *)

Section SliceNames.

Import Legend.

Lemma split_nonempty sep s : split sep s ≠ [].
Proof.
  destruct s as [|c s]; simpl; [done|].
  destruct (Ascii.eqb c sep); [done|]. by destruct (split sep s).
Qed.

Lemma split_lacks sep s : Forall (fun piece => JsDate.lacks sep piece = true) (split sep s).
Proof.
  induction s as [|c s IH]; simpl; [by repeat constructor|].
  destruct (Ascii.eqb c sep) eqn:E; [by constructor|].
  destruct (split sep s) as [|piece pieces]; [by repeat constructor; simpl; rewrite E|].
  apply Forall_cons in IH as [Hp Hps].
  constructor; [|done]. simpl. by rewrite E, Hp.
Qed.

Lemma split_append sep dir s :
  split sep (String.append dir (String sep s)) = split sep dir ++ split sep s.
Proof.
  induction dir as [|c dir IH]; simpl.
  - by rewrite Ascii.eqb_refl.
  - rewrite IH. destruct (Ascii.eqb c sep); [done|].
    pose proof (split_nonempty sep dir). by destruct (split sep dir).
Qed.

Lemma last_split_append sep dir s :
  last (split sep (String.append dir (String sep s))) = last (split sep s).
Proof.
  rewrite split_append, last_app.
  pose proof (split_nonempty sep s) as Hne.
  destruct (last (split sep s)) eqn:E; [done|].
  apply last_None in E. by destruct Hne.
Qed.

Lemma split_whole sep s : JsDate.lacks sep s = true → split sep s = [s].
Proof.
  induction s as [|c s IH]; simpl; [done|].
  intros [Hc Hs]%andb_true_iff. apply negb_true_iff in Hc.
  by rewrite Hc, (IH Hs).
Qed.

Lemma lacks_strip_md sep s : JsDate.lacks sep s = true → JsDate.lacks sep (strip_md s) = true.
Proof.
  induction s as [|c s IH]; [done|].
  intros H. cbn [strip_md]. destruct (is_dot_md (String c s)); [done|].
  simpl in *. apply andb_true_iff in H as [-> Hs]. by rewrite (IH Hs).
Qed.

(** Stripping removes a final [.md], [.MD], [.Md] or [.mD]. *)
Lemma strip_md_append name (ext : string) :
  is_dot_md ext = true → strip_md (String.append name ext) = name.
Proof.
  intros Hext. induction name as [|c name IH].
  - change (String.append EmptyString ext) with ext.
    destruct ext as [|c ext]; [done|]. cbn [strip_md]. by rewrite Hext.
  - change (String.append (String c name) ext)
      with (String c (String.append name ext)).
    cbn [strip_md]. rewrite IH.
    assert (Hno : is_dot_md (String c (String.append name ext)) = false).
    { destruct ext as [|e1 [|e2 [|e3 [|e4 ext]]]]; try discriminate Hext.
      destruct name as [|n1 [|n2 [|n3 name]]]; reflexivity. }
    by rewrite Hno.
Qed.

End SliceNames.

(** X18: in the second copy of the plugin, the name of a slice whose file
    the vault no longer has never contains a slash; for a path that ends
    in a folder separator, a name without slashes and [.md] in any case,
    it is that name, whatever the folder, so that notes of one name in two
    folders get slices of the same name.  The name given by the vault is
    used as it is. *)
Theorem X18_slice_name_fallback (vault : string -> option string)
    (dir name ext : string) :
  vault (String.append dir (String "/" (String.append name ext))) = None →
  JsDate.lacks "/" name = true → Legend.is_dot_md ext = true →
  Legend.label vault (String.append dir (String "/" (String.append name ext))) = name
  ∧ (∀ p, vault p = None → JsDate.lacks "/" (Legend.label vault p) = true)
  ∧ (∀ p basename, vault p = Some basename → Legend.label vault p = basename).
Proof.
  intros Hv Hname Hext. split; [|split].
  - unfold Legend.label, Legend.fallback. rewrite Hv, last_split_append.
    assert (Hl : JsDate.lacks "/" (String.append name ext) = true).
    { rewrite lacks_append, Hname.
      destruct ext as [|e1 [|e2 [|e3 [|e4 ext]]]]; try discriminate Hext.
      simpl in *. apply andb_true_iff in Hext as [[H1 H2]%andb_true_iff H3].
      apply Ascii.eqb_eq in H1 as ->.
      apply orb_true_iff in H2 as [->%Ascii.eqb_eq| ->%Ascii.eqb_eq];
        apply orb_true_iff in H3 as [->%Ascii.eqb_eq| ->%Ascii.eqb_eq]; done. }
    rewrite (split_whole _ _ Hl). simpl. by apply strip_md_append.
  - intros p Hp. unfold Legend.label, Legend.fallback. rewrite Hp.
    pose proof (split_lacks "/" p) as Hall.
    destruct (last (Legend.split "/" p)) as [piece|] eqn:E.
    + apply lacks_strip_md. rewrite Forall_forall in Hall. apply Hall.
      by apply last_Some_elem_of.
    + apply last_None in E. by destruct (split_nonempty "/" p).
  - intros p basename Hp. unfold Legend.label. by rewrite Hp.
Qed.

Lemma X18_slice_name_fallback_witness :
  let vault := fun _ : string => @None string in
  Legend.label vault "projects/2024/Plan.MD" = "Plan"%string
  ∧ Legend.label vault "archive/Plan.md" = "Plan"%string.
Proof.
  intros vault. split.
  - destruct (X18_slice_name_fallback vault "projects/2024" "Plan" ".MD")
      as [H _]; [reflexivity..|]. exact H.
  - destruct (X18_slice_name_fallback vault "archive" "Plan" ".md")
      as [H _]; [reflexivity..|]. exact H.
Defined.

Lemma X16_sort_setting_reverts_on_unload_witness :
  let file := Some (Settings.mkBlob (Some "tag"%string) ∅) in
  let acts := [(1704067200000,
                Settings.Host (ActiveLeafChange (MarkdownView (Some "A.md"%string))));
               (1704067230000, Settings.SortChartBy "directory")] in
  let p := Settings.run 0 acts (Settings.onload 0 1704067100000 file) in
  let pu := Settings.onunload 0 1704067290000 p in
  (Settings.data p ≫= Settings.sortBy) = Some "directory"%string
  ∧ (Settings.data pu ≫= Settings.sortBy) = Some "tag"%string
  ∧ Settings.sortBy (Settings.settings (Settings.onload 0 1704070000000 (Settings.data pu)))
    = Some "tag"%string.
Proof.
  intros file acts p pu.
  destruct (X16_sort_setting_reverts_on_unload 0 1704067100000 1704067290000
              1704070000000 file acts) as (Hd & Hs & Hr).
  split; [reflexivity|]. split.
  - fold p in Hd. fold pu in Hd. rewrite Hd. exact Hs.
  - exact Hr.
Defined.

Lemma X17_sort_change_stores_the_loaded_log_witness :
  let file := Some (Settings.mkBlob None {[ "2023-12-31"%string := {[ "A.md"%string := 5000 ]} ]}) in
  let acts := [(1704067200000,
                Settings.Host (ActiveLeafChange (MarkdownView (Some "A.md"%string))));
               (1704067260000, Settings.Host IntervalTick)] in
  let p := Settings.run 0 acts (Settings.onload 0 1704067100000 file) in
  log_lookup (Settings.buckets (Settings.timeLogs p)) "2024-01-01" "A.md" = Some 60000
  ∧ (Settings.buckets <$> Settings.data (Settings.onChange "tag" p)) =
    Some {[ "2023-12-31"%string := {[ "A.md"%string := 5000 ]} ]}.
Proof.
  intros file acts p. split; [reflexivity|].
  destruct (X17_sort_change_stores_the_loaded_log 0 1704067100000 file acts "tag")
    as [H _].
  fold p in H. by rewrite H.
Defined.
